(** * BiotechClinicalTrialFhe: batch life cycle, encrypted aggregation and
      the decryption request / callback protocol

    A shallow embedding of [contracts/Biotech_Clinical_Trial_Fhe.sol].

    - [uint256], [address] and [bytes32] values are integers ([Z]); checked
      arithmetic of Solidity 0.8 is written out ([checked_add] reverts with
      [Panic] on overflow).
    - A Solidity [mapping] is a finite map ([gmap]) read with a default: a key
      that was never written reads as the zero value of its type.
    - The body of an external function is a computation in a state-and-revert
      monad [M].  A revert carries the storage as it was at the point of the
      revert; [transact] is the transaction boundary, which discards that
      storage and keeps the one the call started from.
    - The FHE library, the decryption oracle and [keccak256] are not part of
      the contract: they are the operations of an [FHEVM] structure the whole
      development is parameterised by. *)

From Stdlib Require Import ZArith List Bool Lia Permutation.
From stdpp Require Import gmap.
Import ListNotations.

Local Open Scope Z_scope.

(** ** Words *)

Definition uint256_max : Z := 2 ^ 256 - 1.
Definition uint32_modulus : Z := 2 ^ 32.

(** [bytes] values (the [cleartexts] and [proof] of the callback). *)
Abbreviation bytes := (list Byte.byte).

(** Big-endian value of a run of bytes. *)
Definition word_of_bytes (bs : bytes) : Z :=
  fold_left (fun acc b => acc * 256 + Z.of_N (Byte.to_N b)) bs 0.

(** [abi.decode(data, (bytes32, bytes32))]: two 32-byte words read from the
    head of [data]; the decoder reverts when fewer than 64 bytes are given. *)
Definition abi_decode_bytes32_pair (data : bytes) : option (Z * Z) :=
  if (length data <? 64)%nat then None
  else Some (word_of_bytes (firstn 32 data),
             word_of_bytes (firstn 32 (skipn 32 data))).

(** ** Errors and events *)

Inductive Error : Type :=
| NotOwner
| NotProvider
| Paused
| CooldownActive
| BatchClosed
| BatchNotClosed
| InvalidParameter
| ReplayDetected
| StateMismatch
| DecryptionFailed
| NotInitialized
| Panic              (* arithmetic overflow of checked uint256 arithmetic *)
| InvalidSignatures  (* revert raised inside [FHE.checkSignatures] *)
| DecodeFailure.     (* revert raised by [abi.decode] *)

Inductive Event : Type :=
| EvOwnershipTransferred (previousOwner newOwner : Z)
| EvProviderAdded (provider : Z)
| EvProviderRemoved (provider : Z)
| EvPaused (account : Z)
| EvUnpaused (account : Z)
| EvCooldownSecondsSet (oldCooldown newCooldown : Z)
| EvBatchOpened (batchId : Z)
| EvBatchClosed (batchId : Z)
| EvResponseSubmitted (provider batchId responseCount : Z)
| EvDecryptionRequested (requestId batchId : Z)
| EvDecryptionCompleted (requestId batchId totalResponseSum : Z).

(** ** The consumed capability: FHE library, oracle and hash

    An [euint32] is a handle, a [bytes32] word.  The contract stores the
    encrypted count in a [uint256] slot and the encrypted sum in an [euint32]
    slot; both hold such a word.  The operations are the ones the contract
    calls, with the signatures of the capability surface it consumes
    ([add(Ciphertext, Ciphertext) -> Ciphertext],
    [requestDecryption(ciphertexts) -> RequestId], ...): total functions,
    the oracle being the only one with a state of its own. *)

Class FHEVM : Type := {
  (** state of the coprocessor / decryption oracle the library talks to *)
  coprocessor : Type;
  (** [FHE.asEuint32(v)] *)
  FHE_asEuint32 : Z -> Z;
  (** [FHE.add(a, b)] *)
  FHE_add : Z -> Z -> Z;
  (** [FHE.isInitialized(v)] *)
  FHE_isInitialized : Z -> bool;
  (** [FHE.toBytes32(v)] *)
  FHE_toBytes32 : Z -> Z;
  (** [FHE.requestDecryption(cts, selector)]: the request id and the
      collaborator's next state *)
  FHE_requestDecryption : list Z -> coprocessor -> Z * coprocessor;
  (** [FHE.checkSignatures(requestId, cleartexts, proof)]: [false] when the
      library reverts *)
  FHE_checkSignatures : Z -> bytes -> bytes -> coprocessor -> bool;
  (** [keccak256(abi.encode(cts, addr))] *)
  keccak256_encode : list Z -> Z -> Z;
  (** the plaintext a handle stands for (specification only: the contract
      never calls it) *)
  FHE_decrypt : Z -> Z
}.

(** ** Storage *)

Record Batch : Type := mkBatch {
  id : Z;
  open : bool;
  totalEncryptedResponses : Z;
  encryptedTotalResponseSum : Z
}.

Record DecryptionContext : Type := mkDecryptionContext {
  batchId : Z;
  stateHash : Z;
  processed : bool
}.

(** Zero values read from storage slots that were never written. *)
Definition Batch_zero : Batch := mkBatch 0 false 0 0.
Definition DecryptionContext_zero : DecryptionContext :=
  mkDecryptionContext 0 0 false.

(** What a call sees besides its arguments. *)
Record CallCtx : Type := mkCallCtx {
  msg_sender : Z;
  block_timestamp : Z;
  address_this : Z
}.

(** The two tables a [respectCooldown] modifier can be bound to. *)
Inductive CooldownTable : Type :=
| LastSubmissionTime
| LastDecryptionRequestTime.

Section Contract.

Context `{F : FHEVM}.

Record State : Type := mkState {
  owner : Z;
  isProvider : gmap Z bool;
  paused : bool;
  cooldownSeconds : Z;
  lastSubmissionTime : gmap Z Z;
  lastDecryptionRequestTime : gmap Z Z;
  currentBatchId : Z;
  batches : gmap Z Batch;
  decryptionContexts : gmap Z DecryptionContext;
  (** state of the external collaborator *)
  fhevm : coprocessor;
  (** events emitted so far, oldest first *)
  emitted : list Event
}.

(** *** Reading mappings *)

Definition isProvider_at (s : State) (a : Z) : bool :=
  default false (isProvider s !! a).
Definition batches_at (s : State) (b : Z) : Batch :=
  default Batch_zero (batches s !! b).
Definition decryptionContexts_at (s : State) (r : Z) : DecryptionContext :=
  default DecryptionContext_zero (decryptionContexts s !! r).
Definition lastCallTime (t : CooldownTable) (s : State) : gmap Z Z :=
  match t with
  | LastSubmissionTime => lastSubmissionTime s
  | LastDecryptionRequestTime => lastDecryptionRequestTime s
  end.
Definition lastCallTime_at (t : CooldownTable) (s : State) (a : Z) : Z :=
  default 0 (lastCallTime t s !! a).

(** *** Writing storage *)

Definition set_owner (v : Z) (s : State) : State :=
  mkState v (isProvider s) (paused s) (cooldownSeconds s)
    (lastSubmissionTime s) (lastDecryptionRequestTime s) (currentBatchId s)
    (batches s) (decryptionContexts s) (fhevm s) (emitted s).
Definition set_isProvider (a : Z) (v : bool) (s : State) : State :=
  mkState (owner s) (<[a := v]> (isProvider s)) (paused s) (cooldownSeconds s)
    (lastSubmissionTime s) (lastDecryptionRequestTime s) (currentBatchId s)
    (batches s) (decryptionContexts s) (fhevm s) (emitted s).
Definition set_paused (v : bool) (s : State) : State :=
  mkState (owner s) (isProvider s) v (cooldownSeconds s)
    (lastSubmissionTime s) (lastDecryptionRequestTime s) (currentBatchId s)
    (batches s) (decryptionContexts s) (fhevm s) (emitted s).
Definition set_cooldownSeconds (v : Z) (s : State) : State :=
  mkState (owner s) (isProvider s) (paused s) v
    (lastSubmissionTime s) (lastDecryptionRequestTime s) (currentBatchId s)
    (batches s) (decryptionContexts s) (fhevm s) (emitted s).
Definition set_lastCallTime (t : CooldownTable) (a v : Z) (s : State) : State :=
  match t with
  | LastSubmissionTime =>
      mkState (owner s) (isProvider s) (paused s) (cooldownSeconds s)
        (<[a := v]> (lastSubmissionTime s)) (lastDecryptionRequestTime s)
        (currentBatchId s) (batches s) (decryptionContexts s) (fhevm s)
        (emitted s)
  | LastDecryptionRequestTime =>
      mkState (owner s) (isProvider s) (paused s) (cooldownSeconds s)
        (lastSubmissionTime s) (<[a := v]> (lastDecryptionRequestTime s))
        (currentBatchId s) (batches s) (decryptionContexts s) (fhevm s)
        (emitted s)
  end.
Definition set_currentBatchId (v : Z) (s : State) : State :=
  mkState (owner s) (isProvider s) (paused s) (cooldownSeconds s)
    (lastSubmissionTime s) (lastDecryptionRequestTime s) v
    (batches s) (decryptionContexts s) (fhevm s) (emitted s).
Definition set_batches (m : gmap Z Batch) (s : State) : State :=
  mkState (owner s) (isProvider s) (paused s) (cooldownSeconds s)
    (lastSubmissionTime s) (lastDecryptionRequestTime s) (currentBatchId s)
    m (decryptionContexts s) (fhevm s) (emitted s).
Definition set_batch (b : Z) (v : Batch) (s : State) : State :=
  set_batches (<[b := v]> (batches s)) s.
Definition set_decryptionContext (r : Z) (v : DecryptionContext) (s : State)
  : State :=
  mkState (owner s) (isProvider s) (paused s) (cooldownSeconds s)
    (lastSubmissionTime s) (lastDecryptionRequestTime s) (currentBatchId s)
    (batches s) (<[r := v]> (decryptionContexts s)) (fhevm s) (emitted s).
Definition set_fhevm (v : coprocessor) (s : State) : State :=
  mkState (owner s) (isProvider s) (paused s) (cooldownSeconds s)
    (lastSubmissionTime s) (lastDecryptionRequestTime s) (currentBatchId s)
    (batches s) (decryptionContexts s) v (emitted s).
Definition push_event (e : Event) (s : State) : State :=
  mkState (owner s) (isProvider s) (paused s) (cooldownSeconds s)
    (lastSubmissionTime s) (lastDecryptionRequestTime s) (currentBatchId s)
    (batches s) (decryptionContexts s) (fhevm s) (emitted s ++ [e]).

(** Field writes through a [Batch storage] / [DecryptionContext storage]
    pointer. *)
Definition Batch_set_id (v : Z) (b : Batch) : Batch :=
  mkBatch v (open b) (totalEncryptedResponses b) (encryptedTotalResponseSum b).
Definition Batch_set_open (v : bool) (b : Batch) : Batch :=
  mkBatch (id b) v (totalEncryptedResponses b) (encryptedTotalResponseSum b).
Definition Batch_set_totalEncryptedResponses (v : Z) (b : Batch) : Batch :=
  mkBatch (id b) (open b) v (encryptedTotalResponseSum b).
Definition Batch_set_encryptedTotalResponseSum (v : Z) (b : Batch) : Batch :=
  mkBatch (id b) (open b) (totalEncryptedResponses b) v.
Definition DecryptionContext_set_processed (v : bool) (c : DecryptionContext)
  : DecryptionContext :=
  mkDecryptionContext (batchId c) (stateHash c) v.

(** ** The state-and-revert monad *)

Inductive Result (A : Type) : Type :=
| Return (a : A) (s : State)
| Reverted (e : Error) (s : State).
Arguments Return {A} a s.
Arguments Reverted {A} e s.

Definition M (A : Type) : Type := State -> Result A.

Definition ret {A} (a : A) : M A := fun s => Return a s.
Definition bind {A B} (m : M A) (k : A -> M B) : M B :=
  fun s => match m s with
           | Return a s' => k a s'
           | Reverted e s' => Reverted e s'
           end.
Definition revert {A} (e : Error) : M A := fun s => Reverted e s.
Definition gets {A} (f : State -> A) : M A := fun s => Return (f s) s.
Definition modify (f : State -> State) : M unit := fun s => Return tt (f s).
Definition emit (e : Event) : M unit := modify (push_event e).
(** [if (c) revert e();] *)
Definition revert_if (c : bool) (e : Error) : M unit :=
  if c then revert e else ret tt.

End Contract.

Arguments State : clear implicits.
Arguments Result : clear implicits.
Arguments M : clear implicits.
Arguments Return {F A} a s.
Arguments Reverted {F A} e s.

Declare Scope contract_scope.
Delimit Scope contract_scope with contract.
Notation "'let*' x ':=' m 'in' k" := (bind m (fun x => k))
  (at level 10, x name, m at level 100, k at level 200) : contract_scope.
Notation "m '>>' k" := (bind m (fun _ => k))
  (at level 100, k at level 200, right associativity) : contract_scope.

Local Open Scope contract_scope.

Section EntryPoints.

Context `{F : FHEVM}.

(** Checked [uint256] addition: overflow reverts with a panic. *)
Definition checked_add (a b : Z) : M F Z :=
  if a + b <=? uint256_max then ret (a + b) else revert Panic.

(** *** Modifiers *)

Definition onlyOwner (c : CallCtx) : M F unit :=
  let* o := gets owner in
  revert_if (negb (msg_sender c =? o)) NotOwner.

Definition onlyProvider (c : CallCtx) : M F unit :=
  let* p := gets (fun s => isProvider_at s (msg_sender c)) in
  revert_if (negb p) NotProvider.

Definition whenNotPaused : M F unit :=
  let* p := gets paused in
  revert_if p Paused.

Definition respectCooldown (c : CallCtx) (caller : Z)
    (lastCallTimeTable : CooldownTable) : M F unit :=
  let* last := gets (fun s => lastCallTime_at lastCallTimeTable s caller) in
  let* cooldown := gets cooldownSeconds in
  let* ready := checked_add last cooldown in
  revert_if (block_timestamp c <? ready) CooldownActive >>
  modify (set_lastCallTime lastCallTimeTable caller (block_timestamp c)).

(** *** Construction and administration *)

Definition constructor (c : CallCtx) (cp : coprocessor) : State F :=
  mkState (msg_sender c) ∅ false 0 ∅ ∅ 0 ∅ ∅ cp
    [EvOwnershipTransferred 0 (msg_sender c)].

Definition transferOwnership (c : CallCtx) (newOwner : Z) : M F unit :=
  onlyOwner c >>
  let* oldOwner := gets owner in
  modify (set_owner newOwner) >>
  emit (EvOwnershipTransferred oldOwner newOwner).

Definition addProvider (c : CallCtx) (provider : Z) : M F unit :=
  onlyOwner c >>
  modify (set_isProvider provider true) >>
  emit (EvProviderAdded provider).

Definition removeProvider (c : CallCtx) (provider : Z) : M F unit :=
  onlyOwner c >>
  modify (set_isProvider provider false) >>
  emit (EvProviderRemoved provider).

Definition setPaused (c : CallCtx) (_paused : bool) : M F unit :=
  onlyOwner c >>
  let* p := gets paused in
  revert_if (Bool.eqb p _paused) InvalidParameter >>
  modify (set_paused _paused) >>
  if _paused then emit (EvPaused (msg_sender c))
  else emit (EvUnpaused (msg_sender c)).

Definition setCooldownSeconds (c : CallCtx) (newCooldownSeconds : Z)
  : M F unit :=
  onlyOwner c >>
  let* oldCooldown := gets cooldownSeconds in
  revert_if (newCooldownSeconds =? oldCooldown) InvalidParameter >>
  modify (set_cooldownSeconds newCooldownSeconds) >>
  emit (EvCooldownSecondsSet oldCooldown newCooldownSeconds).

(** *** Batch life cycle *)

(** A write to one field of [batches[b]] through a storage pointer. *)
Definition update_batch (b : Z) (f : Batch -> Batch) : M F unit :=
  modify (fun s => set_batch b (f (batches_at s b)) s).

Definition openBatch (c : CallCtx) : M F unit :=
  onlyOwner c >>
  whenNotPaused >>
  let* old := gets currentBatchId in
  let* new := checked_add old 1 in
  modify (set_currentBatchId new) >>
  update_batch new (Batch_set_id new) >>
  update_batch new (Batch_set_open true) >>
  update_batch new (Batch_set_totalEncryptedResponses (FHE_asEuint32 0)) >>
  update_batch new (Batch_set_encryptedTotalResponseSum (FHE_asEuint32 0)) >>
  emit (EvBatchOpened new).

Definition closeBatch (c : CallCtx) (bid : Z) : M F unit :=
  onlyOwner c >>
  whenNotPaused >>
  let* cur := gets currentBatchId in
  revert_if (negb (bid =? cur)) InvalidParameter >>
  let* batch := gets (fun s => batches_at s bid) in
  revert_if (negb (open batch)) BatchClosed >>
  update_batch bid (Batch_set_open false) >>
  emit (EvBatchClosed bid).

(** *** Encrypted aggregation *)

Definition _requireInitialized (value : Z) : M F unit :=
  revert_if (negb (FHE_isInitialized value)) NotInitialized.

Definition _hashCiphertexts (c : CallCtx) (cts : list Z) : Z :=
  keccak256_encode cts (address_this c).

(** The [for] loop of [submitEncryptedResponses], one iteration per element
    of the array. *)
Fixpoint accumulate (bid : Z) (encryptedResponses : list Z) : M F unit :=
  match encryptedResponses with
  | [] => ret tt
  | v :: rest =>
      _requireInitialized v >>
      let* batch := gets (fun s => batches_at s bid) in
      update_batch bid
        (Batch_set_encryptedTotalResponseSum
           (FHE_add (encryptedTotalResponseSum batch) v)) >>
      accumulate bid rest
  end.

Definition submitEncryptedResponses (c : CallCtx) (bid : Z)
    (encryptedResponses : list Z) : M F unit :=
  onlyProvider c >>
  whenNotPaused >>
  respectCooldown c (msg_sender c) LastSubmissionTime >>
  let* batch := gets (fun s => batches_at s bid) in
  revert_if (negb (open batch)) BatchClosed >>
  accumulate bid encryptedResponses >>
  let* batch' := gets (fun s => batches_at s bid) in
  update_batch bid
    (Batch_set_totalEncryptedResponses
       (FHE_add (totalEncryptedResponses batch')
          (FHE_asEuint32 (Z.of_nat (length encryptedResponses))))) >>
  emit (EvResponseSubmitted (msg_sender c) bid
          (Z.of_nat (length encryptedResponses))).

(** *** Decryption request and callback *)

(** The two handles a summary request and its callback hash, read from the
    batch as it is now. *)
Definition batch_cts (batch : Batch) : list Z :=
  [FHE_toBytes32 (totalEncryptedResponses batch);
   FHE_toBytes32 (encryptedTotalResponseSum batch)].

Definition requestBatchSummaryDecryption (c : CallCtx) (bid : Z) : M F unit :=
  onlyOwner c >>
  whenNotPaused >>
  respectCooldown c (msg_sender c) LastDecryptionRequestTime >>
  let* batch := gets (fun s => batches_at s bid) in
  revert_if (open batch) BatchNotClosed >>
  let cts := batch_cts batch in
  let stateHash := _hashCiphertexts c cts in
  let* cp := gets fhevm in
  let '(requestId, cp') := FHE_requestDecryption cts cp in
  modify (set_fhevm cp') >>
  modify (set_decryptionContext requestId
            (mkDecryptionContext bid stateHash false)) >>
  emit (EvDecryptionRequested requestId bid).

Definition myCallback (c : CallCtx) (requestId : Z) (cleartexts proof : bytes)
  : M F unit :=
  let* ctx0 := gets (fun s => decryptionContexts_at s requestId) in
  revert_if (processed ctx0) ReplayDetected >>
  let* ctx := gets (fun s => decryptionContexts_at s requestId) in
  let* batch := gets (fun s => batches_at s (batchId ctx)) in
  let currentCts := batch_cts batch in
  let currentStateHash := _hashCiphertexts c currentCts in
  revert_if (negb (currentStateHash =? stateHash ctx)) StateMismatch >>
  let* cp := gets fhevm in
  revert_if (negb (FHE_checkSignatures requestId cleartexts proof cp))
    InvalidSignatures >>
  match abi_decode_bytes32_pair cleartexts with
  | None => revert DecodeFailure
  | Some (totalResponsesCleartext, totalResponseSumCleartext) =>
      let totalResponseSum := totalResponseSumCleartext in
      modify (fun s =>
        set_decryptionContext requestId
          (DecryptionContext_set_processed true
             (decryptionContexts_at s requestId)) s) >>
      emit (EvDecryptionCompleted requestId (batchId ctx) totalResponseSum)
  end.

(** The fingerprint the callback recomputes for [requestId]: the digest of
    the two handles of the batch the stored context names, as they are now. *)
Definition current_fingerprint (c : CallCtx) (s : State F) (requestId : Z)
  : Z :=
  _hashCiphertexts c
    (batch_cts (batches_at s (batchId (decryptionContexts_at s requestId)))).

(** The error a computation ended with, if any. *)
Definition error_of {A} (r : Result F A) : option Error :=
  match r with
  | Return _ _ => None
  | Reverted e _ => Some e
  end.

(** A batch that was closed: its id has been handed out and its [open]
    field is false. *)
Definition sealed (s : State F) (bid : Z) : Prop :=
  bid <= currentBatchId s /\ open (batches_at s bid) = false.

(** ** Transactions *)

(** The external functions of the contract with their arguments. *)
Inductive Call : Type :=
| TransferOwnership (newOwner : Z)
| AddProvider (provider : Z)
| RemoveProvider (provider : Z)
| SetPaused (_paused : bool)
| SetCooldownSeconds (newCooldownSeconds : Z)
| OpenBatch
| CloseBatch (bid : Z)
| SubmitEncryptedResponses (bid : Z) (encryptedResponses : list Z)
| RequestBatchSummaryDecryption (bid : Z)
| MyCallback (requestId : Z) (cleartexts proof : bytes).

Definition dispatch (c : CallCtx) (call : Call) : M F unit :=
  match call with
  | TransferOwnership newOwner => transferOwnership c newOwner
  | AddProvider provider => addProvider c provider
  | RemoveProvider provider => removeProvider c provider
  | SetPaused p => setPaused c p
  | SetCooldownSeconds n => setCooldownSeconds c n
  | OpenBatch => openBatch c
  | CloseBatch bid => closeBatch c bid
  | SubmitEncryptedResponses bid vs => submitEncryptedResponses c bid vs
  | RequestBatchSummaryDecryption bid => requestBatchSummaryDecryption c bid
  | MyCallback r cleartexts proof => myCallback c r cleartexts proof
  end.

(** One transaction: the storage after the call and the error it ended with,
    if any.  A revert restores the storage the call started from. *)
Definition transact (c : CallCtx) (call : Call) (s : State F)
  : State F * option Error :=
  match dispatch c call s with
  | Return _ s' => (s', None)
  | Reverted e _ => (s, Some e)
  end.

(** A sequence of transactions, each with its own call context. *)
Fixpoint run (calls : list (CallCtx * Call)) (s : State F) : State F :=
  match calls with
  | [] => s
  | (c, call) :: rest => run rest (fst (transact c call s))
  end.

(** Every transaction of the sequence goes through. *)
Fixpoint succeeds (calls : list (CallCtx * Call)) (s : State F) : Prop :=
  match calls with
  | [] => True
  | (c, call) :: rest =>
      snd (transact c call s) = None
      /\ succeeds rest (fst (transact c call s))
  end.

(** Submissions to one batch, one call per group of handles. *)
Definition submissions (bid : Z) (groups : list (CallCtx * list Z))
  : list (CallCtx * Call) :=
  map (fun g => (fst g, SubmitEncryptedResponses bid (snd g))) groups.

(** All the handles of a sequence of groups, in submission order. *)
Definition submitted (groups : list (CallCtx * list Z)) : list Z :=
  concat (map snd groups).

(** The plaintexts behind a list of handles, and their arithmetic sum. *)
Definition plaintexts (vs : list Z) : list Z := map FHE_decrypt vs.
Definition arithmetic_sum (xs : list Z) : Z := fold_right Z.add 0 xs.

(** The decrypted running totals of a batch. *)
Definition decrypted_sum (s : State F) (bid : Z) : Z :=
  FHE_decrypt (encryptedTotalResponseSum (batches_at s bid)).
Definition decrypted_count (s : State F) (bid : Z) : Z :=
  FHE_decrypt (totalEncryptedResponses (batches_at s bid)).

End EntryPoints.

(** ** A reference collaborator

    An executable [FHEVM] in the manner of a mocked coprocessor: a handle
    carries its plaintext in the low 32 bits under a marker bit (so that no
    computed handle is the zero word), request ids are handed out by a
    counter, a proof is accepted when it is non-empty and its request was
    issued, and the digest is a polynomial fingerprint standing in for
    [keccak256].  It is used to run the contract on concrete inputs. *)

Definition mock_decrypt (h : Z) : Z := h mod uint32_modulus.
Definition mock_asEuint32 (v : Z) : Z := uint32_modulus + v mod uint32_modulus.
Definition mock_add (a b : Z) : Z :=
  uint32_modulus + (mock_decrypt a + mock_decrypt b) mod uint32_modulus.
Definition mock_isInitialized (h : Z) : bool := negb (h =? 0).
Definition mock_requestDecryption (cts : list Z) (counter : Z) : Z * Z :=
  (counter, counter + 1).
Definition mock_checkSignatures (requestId : Z) (cleartexts proof : bytes)
    (counter : Z) : bool :=
  (0 <=? requestId) && (requestId <? counter) && (0 <? length proof)%nat.
Definition mock_digest (cts : list Z) (addr : Z) : Z :=
  fold_left (fun acc w => (acc * 1000003 + w + 1) mod 2 ^ 256)
    (cts ++ [addr]) 7.

Definition mockFHEVM : FHEVM := {|
  coprocessor := Z;
  FHE_asEuint32 := mock_asEuint32;
  FHE_add := mock_add;
  FHE_isInitialized := mock_isInitialized;
  FHE_toBytes32 := fun h => h;
  FHE_requestDecryption := mock_requestDecryption;
  FHE_checkSignatures := mock_checkSignatures;
  keccak256_encode := mock_digest;
  FHE_decrypt := mock_decrypt
|}.

(** What the aggregation claims assume of the library: handles of type
    [euint32] stand for 32-bit values, and [FHE.add] adds them with
    wrap-around. *)
Class Homomorphic (F : FHEVM) : Prop := {
  decrypt_range : forall h, 0 <= FHE_decrypt h < uint32_modulus;
  decrypt_asEuint32 :
    forall v, FHE_decrypt (FHE_asEuint32 v) = v mod uint32_modulus;
  decrypt_add :
    forall a b,
      FHE_decrypt (FHE_add a b)
      = (FHE_decrypt a + FHE_decrypt b) mod uint32_modulus
}.

(** ** Concrete scenarios

    Runs of the contract over the reference collaborator, from deployment. *)

Definition contract_address : Z := 99.
Definition admin_address : Z := 1.
Definition provider_address : Z := 2.
Definition outsider_address : Z := 3.

Definition as_admin (now : Z) : CallCtx :=
  mkCallCtx admin_address now contract_address.
Definition as_provider (now : Z) : CallCtx :=
  mkCallCtx provider_address now contract_address.
Definition as_outsider (now : Z) : CallCtx :=
  mkCallCtx outsider_address now contract_address.

Definition deployed : State mockFHEVM :=
  @constructor mockFHEVM (as_admin 1000) 0.

(** [abi.encode(bytes32(count), bytes32(sum))] for small values. *)
Definition cleartexts_of (count sum : Byte.byte) : bytes :=
  repeat Byte.x00 31 ++ [count] ++ repeat Byte.x00 31 ++ [sum].
Definition some_proof : bytes := [Byte.x01].

(** Batch 1 collects 5, 7 and 3, is closed, and its summary is requested. *)
Definition calls_requested : list (CallCtx * Call) :=
  [ (as_admin 1001, AddProvider provider_address);
    (as_admin 1002, OpenBatch);
    (as_provider 1003,
      SubmitEncryptedResponses 1 [mock_asEuint32 5; mock_asEuint32 7]);
    (as_provider 1004, SubmitEncryptedResponses 1 [mock_asEuint32 3]);
    (as_admin 1005, CloseBatch 1);
    (as_admin 1006, RequestBatchSummaryDecryption 1) ].
Definition state_requested : State mockFHEVM := run calls_requested deployed.

(** ... and the oracle's callback for request 0 has been accepted. *)
Definition calls_finalized : list (CallCtx * Call) :=
  calls_requested
  ++ [ (as_outsider 1007,
         MyCallback 0 (cleartexts_of Byte.x03 Byte.x0f) some_proof) ].
Definition state_finalized : State mockFHEVM := run calls_finalized deployed.

(** Batch 1 has just been opened and a provider is registered. *)
Definition calls_open : list (CallCtx * Call) :=
  [ (as_admin 1001, AddProvider provider_address);
    (as_admin 1002, OpenBatch) ].
Definition state_open : State mockFHEVM := run calls_open deployed.

(** The two submissions of [calls_requested], as groups of handles. *)
Definition groups_5_7_then_3 : list (CallCtx * list Z) :=
  [ (as_provider 1003, [mock_asEuint32 5; mock_asEuint32 7]);
    (as_provider 1004, [mock_asEuint32 3]) ].
Definition groups_3_5_7_at_once : list (CallCtx * list Z) :=
  [ (as_provider 1003, [mock_asEuint32 3; mock_asEuint32 5; mock_asEuint32 7]) ].

(** A summary is requested for batch 1 before any batch exists, and batch 1
    is opened afterwards: the stored fingerprint is stale. *)
Definition calls_stale_pending : list (CallCtx * Call) :=
  [ (as_admin 1001, RequestBatchSummaryDecryption 1);
    (as_admin 1002, OpenBatch) ].
Definition state_stale_pending : State mockFHEVM :=
  run calls_stale_pending deployed.

(** The same, with the callback accepted before the batch is opened. *)
Definition calls_stale_processed : list (CallCtx * Call) :=
  [ (as_admin 1001, RequestBatchSummaryDecryption 1);
    (as_outsider 1002,
      MyCallback 0 (cleartexts_of Byte.x00 Byte.x00) some_proof);
    (as_admin 1003, OpenBatch) ].
Definition state_stale_processed : State mockFHEVM :=
  run calls_stale_processed deployed.

(** The contract is paused while request 0 is pending. *)
Definition state_paused_pending : State mockFHEVM :=
  run (calls_requested ++ [ (as_admin 1007, SetPaused true) ]) deployed.

(** A provider has submitted at time 1003, and the administrator then sets
    the cooldown to the largest [uint256]. *)
Definition calls_max_cooldown : list (CallCtx * Call) :=
  [ (as_admin 1001, AddProvider provider_address);
    (as_admin 1002, OpenBatch);
    (as_provider 1003, SubmitEncryptedResponses 1 [mock_asEuint32 5]);
    (as_admin 1004, SetCooldownSeconds uint256_max) ].
Definition state_max_cooldown : State mockFHEVM :=
  run calls_max_cooldown deployed.

(** ** Vocabulary for the administration and protocol properties *)

(** The entry points that carry the [onlyOwner] modifier. *)
Definition onlyOwner_call (call : Call) : bool :=
  match call with
  | TransferOwnership _ | AddProvider _ | RemoveProvider _ | SetPaused _
  | SetCooldownSeconds _ | OpenBatch | CloseBatch _
  | RequestBatchSummaryDecryption _ => true
  | SubmitEncryptedResponses _ _ | MyCallback _ _ _ => false
  end.

(** The administrative entry points that carry [onlyOwner] alone, without
    [whenNotPaused], and do not themselves write the pause flag. *)
Definition unpaused_admin_call (call : Call) : bool :=
  match call with
  | TransferOwnership _ | AddProvider _ | RemoveProvider _
  | SetCooldownSeconds _ => true
  | _ => false
  end.

(** A call that cannot write the decryption context of [requestId]: anything
    but a new summary request and a callback for [requestId] itself. *)
Definition leaves_context (requestId : Z) (call : Call) : Prop :=
  match call with
  | RequestBatchSummaryDecryption _ => False
  | MyCallback r _ _ => r <> requestId
  | _ => True
  end.

(** A batch that is open although a newer batch exists. *)
Definition stranded `{F : FHEVM} (s : State F) (bid : Z) : Prop :=
  bid < currentBatchId s /\ open (batches_at s bid) = true.


(** Two batches are opened in a row; batch 1 is never closed. *)
Definition calls_two_open : list (CallCtx * Call) :=
  [ (as_admin 1001, AddProvider provider_address);
    (as_admin 1002, OpenBatch);
    (as_admin 1003, OpenBatch) ].
Definition state_two_open : State mockFHEVM := run calls_two_open deployed.

(** A cooldown of 100 seconds is configured before batch 1 is opened. *)
Definition calls_open_cooldown : list (CallCtx * Call) :=
  [ (as_admin 1001, AddProvider provider_address);
    (as_admin 1002, SetCooldownSeconds 100);
    (as_admin 1003, OpenBatch) ].
Definition state_open_cooldown : State mockFHEVM :=
  run calls_open_cooldown deployed.

(** Batch 1 has collected 5, 7 and 3 and is closed; no summary was requested
    yet. *)
Definition calls_closed : list (CallCtx * Call) :=
  [ (as_admin 1001, AddProvider provider_address);
    (as_admin 1002, OpenBatch);
    (as_provider 1003,
      SubmitEncryptedResponses 1 [mock_asEuint32 5; mock_asEuint32 7]);
    (as_provider 1004, SubmitEncryptedResponses 1 [mock_asEuint32 3]);
    (as_admin 1005, CloseBatch 1) ].
Definition state_closed : State mockFHEVM := run calls_closed deployed.

(** While request 0 is pending, a second batch is opened and collects a
    value. *)
Definition calls_meanwhile : list (CallCtx * Call) :=
  [ (as_admin 1010, OpenBatch);
    (as_provider 1011, SubmitEncryptedResponses 2 [mock_asEuint32 9]) ].

(** * Properties *)

(** Unfolds an entry point down to its conditionals. *)
Ltac unfold_call :=
  unfold transact, dispatch,
    transferOwnership, addProvider, removeProvider, setPaused,
    setCooldownSeconds, openBatch, closeBatch, submitEncryptedResponses,
    requestBatchSummaryDecryption, myCallback,
    onlyOwner, onlyProvider, whenNotPaused, respectCooldown, checked_add,
    _requireInitialized, update_batch, emit,
    bind, gets, modify, revert_if, revert, ret;
  cbv beta.

(** Closes a conjunction of closed equations by evaluating each side. *)
Ltac evaluate_each :=
  repeat match goal with |- _ /\ _ => split end;
  vm_compute; reflexivity.

(** Splits on the conditions of an unfolded entry point, first to last. *)
Ltac split_conditions :=
  repeat (simpl;
          match goal with
          | |- context [match (if ?b then _ else _) with _ => _ end] =>
              destruct b eqn:?
          | |- context [(if ?b then _ else _) _] => destruct b eqn:?
          | |- context [let '(_, _) := ?p in _] => destruct p eqn:?
          | |- context [match abi_decode_bytes32_pair ?d with _ => _ end] =>
              destruct (abi_decode_bytes32_pair d) as [[? ?]|] eqn:?
          end);
  simpl.

Section Properties.

Context `{F : FHEVM}.
Implicit Types (s : State F) (c : CallCtx).

(** A revert never changes the storage the transaction started from. *)
Lemma transact_error c call s s' e :
  transact c call s = (s', Some e) -> s' = s.
Proof.
  unfold transact. destruct (dispatch c call s); intros H; inversion H.
  reflexivity.
Qed.

Lemma transact_fst_error c call s e :
  snd (transact c call s) = Some e -> fst (transact c call s) = s.
Proof.
  unfold transact. destruct (dispatch c call s); simpl; congruence.
Qed.

(** ** The rate limiter *)

Lemma lastCallTime_at_set_same t a v s :
  lastCallTime_at t (set_lastCallTime t a v s) a = v.
Proof.
  unfold lastCallTime_at. destruct t; simpl; rewrite lookup_insert_eq;
    reflexivity.
Qed.

Lemma lastCallTime_at_set_other t t' a a' v s :
  t' <> t \/ a' <> a ->
  lastCallTime_at t' (set_lastCallTime t a v s) a' = lastCallTime_at t' s a'.
Proof.
  intros H. unfold lastCallTime_at.
  destruct t, t'; simpl; try reflexivity;
    (destruct H as [H|H]; [congruence|]);
    rewrite lookup_insert_ne by congruence; reflexivity.
Qed.

(** What the modifier does, as one equation. *)
Lemma respectCooldown_eq c caller t s :
  respectCooldown c caller t s
  = if uint256_max <? lastCallTime_at t s caller + cooldownSeconds s
    then Reverted Panic s
    else if block_timestamp c
            <? lastCallTime_at t s caller + cooldownSeconds s
         then Reverted CooldownActive s
         else Return tt (set_lastCallTime t caller (block_timestamp c) s).
Proof.
  unfold respectCooldown, checked_add, bind, gets, modify, revert_if, revert,
    ret. cbv beta.
  rewrite Z.ltb_antisym.
  destruct (lastCallTime_at t s caller + cooldownSeconds s <=? uint256_max);
    simpl; [|reflexivity].
  destruct (block_timestamp c
            <? lastCallTime_at t s caller + cooldownSeconds s);
    reflexivity.
Qed.

(** ** The accumulation loop *)

Lemma set_batches_id s : set_batches (batches s) s = s.
Proof. destruct s; reflexivity. Qed.

Lemma Batch_set_sum_id (b : Batch) :
  Batch_set_encryptedTotalResponseSum (encryptedTotalResponseSum b) b = b.
Proof. destruct b; reflexivity. Qed.

(** The loop writes only [batches[bid].encryptedTotalResponseSum].  It runs
    over the longest prefix of initialized handles, folding [FHE.add] over
    it, and reverts with [NotInitialized] at the first handle that is not. *)
Lemma accumulate_spec bid vs :
  forall s,
  exists m' (done : list Z),
    (forall b, b <> bid -> m' !! b = batches s !! b)
    /\ default Batch_zero (m' !! bid)
       = Batch_set_encryptedTotalResponseSum
           (fold_left FHE_add done
              (encryptedTotalResponseSum (batches_at s bid)))
           (batches_at s bid)
    /\ Forall (fun v => FHE_isInitialized v = true) done
    /\ ((accumulate bid vs s = Return tt (set_batches m' s) /\ done = vs)
        \/ (accumulate bid vs s = Reverted NotInitialized (set_batches m' s)
            /\ exists bad rest,
                 vs = done ++ bad :: rest
                 /\ FHE_isInitialized bad = false)).
Proof.
  induction vs as [|v rest IH]; intros s.
  - exists (batches s), []. repeat split; auto.
    + simpl. rewrite Batch_set_sum_id. reflexivity.
    + left. rewrite set_batches_id. auto.
  - simpl. unfold bind, _requireInitialized, revert_if, revert, ret, gets,
      update_batch, modify. cbv beta.
    destruct (FHE_isInitialized v) eqn:Hv; simpl.
    + set (b1 := Batch_set_encryptedTotalResponseSum
                   (FHE_add (encryptedTotalResponseSum (batches_at s bid)) v)
                   (batches_at s bid)).
      destruct (IH (set_batch bid b1 s)) as (m' & done & Hoff & Hat & Hall & Hres).
      assert (Hb1 : batches_at (set_batch bid b1 s) bid = b1).
      { unfold batches_at, set_batch. simpl. rewrite lookup_insert_eq.
        reflexivity. }
      rewrite Hb1 in Hat.
      exists m', (v :: done). split; [|split; [|split]].
      * intros b Hb. rewrite (Hoff b Hb). unfold set_batch. simpl.
        rewrite lookup_insert_ne by congruence. reflexivity.
      * rewrite Hat. subst b1. reflexivity.
      * constructor; assumption.
      * destruct Hres as [[Hr ->]|[Hr (bad & rest' & -> & Hbad)]].
        -- left. rewrite Hr. auto.
        -- right. rewrite Hr. split; [reflexivity|].
           exists bad, rest'. auto.
    + exists (batches s), []. repeat split; auto.
      * simpl. rewrite Batch_set_sum_id. reflexivity.
      * right. rewrite set_batches_id. split; [reflexivity|].
        exists v, rest. auto.
Qed.

(** ** [submitEncryptedResponses], by cases *)

Lemma submit_cases c bid vs s :
  dispatch c (SubmitEncryptedResponses bid vs) s
  = let s1 := set_lastCallTime LastSubmissionTime (msg_sender c)
                (block_timestamp c) s in
    let ready := lastCallTime_at LastSubmissionTime s (msg_sender c)
                 + cooldownSeconds s in
    if negb (isProvider_at s (msg_sender c)) then Reverted NotProvider s
    else if paused s then Reverted Paused s
    else if uint256_max <? ready then Reverted Panic s
    else if block_timestamp c <? ready then Reverted CooldownActive s
    else if negb (open (batches_at s bid)) then Reverted BatchClosed s1
    else match accumulate bid vs s1 with
         | Reverted e s2 => Reverted e s2
         | Return _ s2 =>
             Return tt
               (push_event
                  (EvResponseSubmitted (msg_sender c) bid
                     (Z.of_nat (length vs)))
                  (set_batch bid
                     (Batch_set_totalEncryptedResponses
                        (FHE_add (totalEncryptedResponses (batches_at s2 bid))
                           (FHE_asEuint32 (Z.of_nat (length vs))))
                        (batches_at s2 bid))
                     s2))
         end.
Proof.
  unfold dispatch, submitEncryptedResponses, onlyProvider, whenNotPaused.
  unfold bind at 1. unfold bind at 1. unfold gets at 1, revert_if at 1.
  destruct (isProvider_at s (msg_sender c)); simpl; [|reflexivity].
  unfold bind at 1. unfold bind at 1. unfold gets at 1, revert_if at 1.
  destruct (paused s) eqn:Hp; simpl; [reflexivity|].
  unfold bind at 1. rewrite respectCooldown_eq.
  destruct (uint256_max
            <? lastCallTime_at LastSubmissionTime s (msg_sender c)
               + cooldownSeconds s); [reflexivity|].
  destruct (block_timestamp c
            <? lastCallTime_at LastSubmissionTime s (msg_sender c)
               + cooldownSeconds s); [reflexivity|].
  unfold bind, gets, revert_if, revert, ret, update_batch, emit, modify.
  cbv beta.
  change (batches_at
            (set_lastCallTime LastSubmissionTime (msg_sender c)
               (block_timestamp c) s) bid)
    with (batches_at s bid).
  destruct (open (batches_at s bid)); simpl; [|rewrite ?Hp; reflexivity].
  rewrite ?Hp.
  destruct (accumulate bid vs _); reflexivity.
Qed.

(** What a successful submission leaves behind. *)
Lemma submit_success c bid vs s s' :
  transact c (SubmitEncryptedResponses bid vs) s = (s', None) ->
  isProvider_at s (msg_sender c) = true
  /\ paused s = false
  /\ open (batches_at s bid) = true
  /\ Forall (fun v => FHE_isInitialized v = true) vs
  /\ exists m',
       s' = push_event
              (EvResponseSubmitted (msg_sender c) bid (Z.of_nat (length vs)))
              (set_batches m'
                 (set_lastCallTime LastSubmissionTime (msg_sender c)
                    (block_timestamp c) s))
       /\ (forall b, b <> bid -> m' !! b = batches s !! b)
       /\ m' !! bid
          = Some (mkBatch (id (batches_at s bid)) true
                    (FHE_add (totalEncryptedResponses (batches_at s bid))
                       (FHE_asEuint32 (Z.of_nat (length vs))))
                    (fold_left FHE_add vs
                       (encryptedTotalResponseSum (batches_at s bid)))).
Proof.
  unfold transact. rewrite submit_cases. cbv zeta.
  remember (set_lastCallTime LastSubmissionTime (msg_sender c)
              (block_timestamp c) s) as s1 eqn:Hs1.
  assert (Hb1 : batches_at s1 bid = batches_at s bid)
    by (subst s1; reflexivity).
  destruct (isProvider_at s (msg_sender c)); simpl; [|discriminate].
  destruct (paused s) eqn:Hp; [discriminate|].
  destruct (uint256_max <? _); [discriminate|].
  destruct (block_timestamp c <? _); [discriminate|].
  destruct (open (batches_at s bid)) eqn:Hopen; simpl; [|discriminate].
  destruct (accumulate_spec bid vs s1) as (m1 & done & Hoff & Hat & Hall & Hres).
  destruct Hres as [[Hr ->]|[Hr _]]; rewrite Hr; [|discriminate].
  intros Heq. inversion Heq as [Hs']. clear Heq.
  repeat split; auto.
  rewrite Hb1 in Hat.
  assert (Hb2 : batches_at (set_batches m1 s1) bid
                = default Batch_zero (m1 !! bid)) by reflexivity.
  rewrite Hb2, Hat.
  eexists. split; [reflexivity|]. split.
  - intros b Hb. simpl. rewrite lookup_insert_ne by congruence.
    rewrite (Hoff b Hb). subst s1. reflexivity.
  - simpl. rewrite lookup_insert_eq. unfold Batch_set_totalEncryptedResponses.
    simpl. rewrite Hopen. reflexivity.
Qed.

(** [requestBatchSummaryDecryption], by cases. *)
Lemma request_cases c bid s :
  dispatch c (RequestBatchSummaryDecryption bid) s
  = let s1 := set_lastCallTime LastDecryptionRequestTime (msg_sender c)
                (block_timestamp c) s in
    let ready := lastCallTime_at LastDecryptionRequestTime s (msg_sender c)
                 + cooldownSeconds s in
    let cts := batch_cts (batches_at s bid) in
    let r := FHE_requestDecryption cts (fhevm s) in
    if negb (msg_sender c =? owner s) then Reverted NotOwner s
    else if paused s then Reverted Paused s
    else if uint256_max <? ready then Reverted Panic s
    else if block_timestamp c <? ready then Reverted CooldownActive s
    else if open (batches_at s bid) then Reverted BatchNotClosed s1
    else Return tt
           (push_event (EvDecryptionRequested (fst r) bid)
              (set_decryptionContext (fst r)
                 (mkDecryptionContext bid
                    (keccak256_encode cts (address_this c)) false)
                 (set_fhevm (snd r) s1))).
Proof.
  unfold dispatch, requestBatchSummaryDecryption, onlyOwner, whenNotPaused.
  unfold bind at 1. unfold bind at 1. unfold gets at 1, revert_if at 1.
  destruct (msg_sender c =? owner s); simpl; [|reflexivity].
  unfold bind at 1. unfold bind at 1. unfold gets at 1, revert_if at 1.
  destruct (paused s) eqn:Hp; simpl; [reflexivity|].
  unfold bind at 1. rewrite respectCooldown_eq.
  destruct (uint256_max <? _); [reflexivity|].
  destruct (block_timestamp c <? _); [reflexivity|].
  unfold bind, gets, revert_if, revert, ret, emit, modify, _hashCiphertexts.
  cbv beta.
  change (batches_at (set_lastCallTime LastDecryptionRequestTime
                        (msg_sender c) (block_timestamp c) s) bid)
    with (batches_at s bid).
  destruct (open (batches_at s bid)); simpl; [rewrite ?Hp; reflexivity|].
  destruct (FHE_requestDecryption (batch_cts (batches_at s bid)) (fhevm s))
    as [requestId cp'].
  simpl. rewrite ?Hp. reflexivity.
Qed.

(** ** What one transaction can do to a batch

    For every call and every batch id [b]: [currentBatchId] never decreases,
    and the stored batch is either untouched, or the one just opened (its id
    is the new [currentBatchId]), or the current batch being closed, or an
    open batch that stays open. *)
Lemma transact_batch_effect c call s b :
  currentBatchId s <= currentBatchId (fst (transact c call s))
  /\ (batches (fst (transact c call s)) !! b = batches s !! b
      \/ (call = OpenBatch /\ b = currentBatchId s + 1
          /\ currentBatchId (fst (transact c call s)) = b)
      \/ (call = CloseBatch b /\ b = currentBatchId s
          /\ currentBatchId (fst (transact c call s)) = b
          /\ open (batches_at s b) = true
          /\ batches_at (fst (transact c call s)) b
             = Batch_set_open false (batches_at s b))
      \/ (open (batches_at s b) = true
          /\ open (batches_at (fst (transact c call s)) b) = true)).
Proof.
  destruct call.
  1-5: unfold_call; split_conditions; (split; [lia|left; reflexivity]).
  - (* openBatch *)
    unfold_call; split_conditions; try (split; [lia|left; reflexivity]).
    split; [lia|].
    destruct (Z.eq_dec b (currentBatchId s + 1)) as [->|Hne].
    + right; left. auto.
    + left. rewrite !lookup_insert_ne by congruence. reflexivity.
  - (* closeBatch *)
    unfold_call; split_conditions; try (split; [lia|left; reflexivity]).
    split; [lia|].
    destruct (Z.eq_dec b bid) as [->|Hne].
    + right; right; left.
      match goal with H : negb (bid =? _) = false |- _ =>
        apply negb_false_iff, Z.eqb_eq in H end.
      match goal with H : negb (open _) = false |- _ =>
        apply negb_false_iff in H end.
      repeat split; auto.
      unfold batches_at at 1. simpl. rewrite lookup_insert_eq. reflexivity.
    + left. rewrite lookup_insert_ne by congruence. reflexivity.
  - (* submitEncryptedResponses *)
    destruct (transact c (SubmitEncryptedResponses bid encryptedResponses) s)
      as [s' [e|]] eqn:Ht.
    + apply transact_error in Ht. subst s'. simpl.
      split; [lia|left; reflexivity].
    + apply submit_success in Ht.
      destruct Ht as (_ & _ & Hopen & _ & m' & -> & Hoff & Hat).
      simpl. split; [lia|].
      destruct (Z.eq_dec b bid) as [->|Hne].
      * right; right; right. split; [exact Hopen|].
        unfold batches_at. simpl. rewrite Hat. reflexivity.
      * left. apply Hoff. exact Hne.
  - (* requestBatchSummaryDecryption *)
    unfold_call; split_conditions; (split; [lia|left; reflexivity]).
  - (* myCallback *)
    unfold_call; split_conditions; (split; [lia|left; reflexivity]).
Qed.

(** ** The decryption callback *)

(** C1. Once the context of [requestId] has [processed = true], the callback
    for that [requestId] reverts with [ReplayDetected] whatever cleartexts and
    proof it is given, and the storage is left as it was.  The flag stays
    set under every further transaction, a new request excepted to which the
    oracle gives the very same id, so this holds for every later
    invocation. *)
Theorem myCallback_replay_rejected c s requestId cleartexts proof :
  processed (decryptionContexts_at s requestId) = true ->
  transact c (MyCallback requestId cleartexts proof) s
  = (s, Some ReplayDetected)
  /\ (forall c' call,
        (forall bid,
           call = RequestBatchSummaryDecryption bid ->
           fst (FHE_requestDecryption (batch_cts (batches_at s bid)) (fhevm s))
           <> requestId) ->
        processed (decryptionContexts_at (fst (transact c' call s)) requestId)
        = true).
Proof.
  intros Hp. split.
  { unfold_call. rewrite Hp. reflexivity. }
  intros c' call Hfresh. destruct call.
  1-7: unfold_call; split_conditions; exact Hp.
  - (* submitEncryptedResponses *)
    destruct (transact c' (SubmitEncryptedResponses bid encryptedResponses) s)
      as [s' [e|]] eqn:Ht.
    + apply transact_error in Ht. subst s'. exact Hp.
    + apply submit_success in Ht.
      destruct Ht as (_ & _ & _ & _ & m' & -> & _). exact Hp.
  - (* requestBatchSummaryDecryption *)
    specialize (Hfresh bid eq_refl).
    unfold transact. rewrite request_cases. cbv zeta.
    destruct (negb (msg_sender c' =? owner s)); [exact Hp|].
    destruct (paused s); [exact Hp|].
    destruct (uint256_max <? _); [exact Hp|].
    destruct (block_timestamp c' <? _); [exact Hp|].
    destruct (open (batches_at s bid)); [exact Hp|].
    unfold decryptionContexts_at. simpl.
    rewrite lookup_insert_ne by exact Hfresh. exact Hp.
  - (* myCallback *)
    unfold_call; split_conditions; try exact Hp.
    unfold decryptionContexts_at. simpl.
    destruct (Z.eq_dec requestId0 requestId) as [->|Hne].
    + rewrite lookup_insert_eq. reflexivity.
    + rewrite lookup_insert_ne by exact Hne. exact Hp.
Qed.

(** C2, as amended. When the recomputed fingerprint differs from the stored
    one the callback reverts and the storage is left as it was ([processed]
    is not set); the error is [StateMismatch] when the request has not been
    processed yet, and [ReplayDetected] when it has, the replay check being
    made first. *)
Theorem myCallback_stale_rejected c s requestId cleartexts proof :
  current_fingerprint c s requestId
    <> stateHash (decryptionContexts_at s requestId) ->
  transact c (MyCallback requestId cleartexts proof) s
  = (s, Some (if processed (decryptionContexts_at s requestId)
              then ReplayDetected else StateMismatch)).
Proof.
  intros Hne. unfold current_fingerprint in Hne. unfold_call.
  destruct (processed (decryptionContexts_at s requestId)); [reflexivity|].
  apply Z.eqb_neq in Hne. simpl. rewrite Hne. reflexivity.
Qed.

(** C10. A [requestId] no request was ever stored for reads as the zero
    context; the callback then never reverts with [ReplayDetected], and it
    reverts with [StateMismatch] exactly when the digest of batch 0's current
    handles is not the zero word. *)
Theorem myCallback_unknown_request c s requestId cleartexts proof :
  decryptionContexts s !! requestId = None ->
  decryptionContexts_at s requestId = mkDecryptionContext 0 0 false
  /\ snd (transact c (MyCallback requestId cleartexts proof) s)
     <> Some ReplayDetected
  /\ (snd (transact c (MyCallback requestId cleartexts proof) s)
      = Some StateMismatch
      <-> _hashCiphertexts c (batch_cts (batches_at s 0)) <> 0)
  /\ (_hashCiphertexts c (batch_cts (batches_at s 0)) <> 0 ->
      transact c (MyCallback requestId cleartexts proof) s
      = (s, Some StateMismatch)).
Proof.
  intros Hnone.
  assert (Hz : decryptionContexts_at s requestId
               = mkDecryptionContext 0 0 false).
  { unfold decryptionContexts_at. rewrite Hnone. reflexivity. }
  split; [exact Hz|].
  unfold_call. repeat (rewrite !Hz; simpl).
  destruct (_hashCiphertexts c (batch_cts (batches_at s 0)) =? 0) eqn:Hh;
    simpl.
  - apply Z.eqb_eq in Hh.
    destruct (FHE_checkSignatures requestId cleartexts proof (fhevm s));
      simpl; [destruct (abi_decode_bytes32_pair cleartexts) as [[a b]|]|];
      simpl; repeat split; intros; try discriminate; congruence.
  - apply Z.eqb_neq in Hh.
    repeat split; intros; try discriminate; congruence.
Qed.

(** ** Closing a batch *)

(** C7. For the administrator, while not paused: [closeBatch] reverts with
    [InvalidParameter] when [batchId] is not [currentBatchId]; for the
    current batch it reverts with [BatchClosed] when the batch is not open,
    and otherwise clears its [open] field, emits [BatchClosed] and changes
    nothing else. *)
Theorem closeBatch_spec c s bid :
  msg_sender c = owner s ->
  paused s = false ->
  (bid <> currentBatchId s ->
   transact c (CloseBatch bid) s = (s, Some InvalidParameter))
  /\ (bid = currentBatchId s -> open (batches_at s bid) = false ->
      transact c (CloseBatch bid) s = (s, Some BatchClosed))
  /\ (bid = currentBatchId s -> open (batches_at s bid) = true ->
      transact c (CloseBatch bid) s
      = (push_event (EvBatchClosed bid)
           (set_batch bid (Batch_set_open false (batches_at s bid)) s),
         None)).
Proof.
  intros Ho Hp. unfold_call. rewrite Ho, Z.eqb_refl. simpl.
  rewrite Hp. simpl.
  repeat split.
  - intros Hne. apply Z.eqb_neq in Hne. rewrite Hne. reflexivity.
  - intros -> Hopen. rewrite Z.eqb_refl. simpl. rewrite Hopen. reflexivity.
  - intros -> Hopen. rewrite Z.eqb_refl. simpl. rewrite Hopen. reflexivity.
Qed.

(** ** Closed batches *)

Lemma batches_at_same s s' b :
  batches s' !! b = batches s !! b -> batches_at s' b = batches_at s b.
Proof. unfold batches_at. intros ->. reflexivity. Qed.

Lemma sealed_step c call s bid :
  sealed s bid ->
  sealed (fst (transact c call s)) bid
  /\ batches_at (fst (transact c call s)) bid = batches_at s bid.
Proof.
  intros [Hle Hclosed].
  destruct (transact_batch_effect c call s bid) as [Hmono Hcases].
  destruct Hcases as [Hsame|[(_ & Hb & _)|[(_ & _ & _ & Hopen & _)|[Hopen _]]]];
    try congruence; try lia.
  apply batches_at_same in Hsame.
  split; [split; [lia|congruence]|exact Hsame].
Qed.

Lemma sealed_run calls :
  forall s bid,
    sealed s bid ->
    sealed (run calls s) bid /\ batches_at (run calls s) bid = batches_at s bid.
Proof.
  induction calls as [|[c call] rest IH]; intros s bid Hs; simpl.
  - auto.
  - destruct (sealed_step c call s bid Hs) as [Hs' Heq].
    destruct (IH _ _ Hs') as [Hs'' Heq'].
    split; [exact Hs''|congruence].
Qed.

(** C6, as amended. (1) A transaction that turns a batch's [open] field from
    true to false leaves the batch sealed.  (2) A sealed batch stays sealed
    under every sequence of calls, and its stored record (id, [open], both
    ciphertexts) never changes.  (3) Every [submitEncryptedResponses] call
    aimed at a sealed batch reverts and changes nothing; the error is
    [BatchClosed] when the caller is a provider, the contract is not paused
    and the cooldown check passes, and otherwise the error of the first guard
    that fails. *)
Theorem closed_batch_is_frozen bid :
  (forall c call s,
     open (batches_at s bid) = true ->
     open (batches_at (fst (transact c call s)) bid) = false ->
     sealed (fst (transact c call s)) bid)
  /\ (forall calls s,
        sealed s bid ->
        sealed (run calls s) bid
        /\ batches_at (run calls s) bid = batches_at s bid)
  /\ (forall c vs s,
        sealed s bid ->
        let ready := lastCallTime_at LastSubmissionTime s (msg_sender c)
                     + cooldownSeconds s in
        transact c (SubmitEncryptedResponses bid vs) s
        = (s, Some (if negb (isProvider_at s (msg_sender c)) then NotProvider
                    else if paused s then Paused
                    else if uint256_max <? ready then Panic
                    else if block_timestamp c <? ready then CooldownActive
                    else BatchClosed))).
Proof.
  split; [|split].
  - intros c call s Hopen Hclosed.
    destruct (transact_batch_effect c call s bid) as [Hmono Hcases].
    destruct Hcases
      as [Hsame|[(_ & Hb & Hcur)|[(_ & _ & Hcur & _ & _)|[_ Hopen']]]].
    + apply batches_at_same in Hsame. congruence.
    + split; [lia|exact Hclosed].
    + split; [lia|exact Hclosed].
    + congruence.
  - intros calls s. apply sealed_run.
  - intros c vs s [_ Hclosed] ready. subst ready.
    unfold transact. rewrite submit_cases. cbv zeta. rewrite Hclosed. simpl.
    destruct (isProvider_at s (msg_sender c)); simpl; [|reflexivity].
    destruct (paused s); [reflexivity|].
    destruct (uint256_max <? _); [reflexivity|].
    destruct (block_timestamp c <? _); reflexivity.
Qed.

(** ** Homomorphic totals *)

Section Totals.

Context {H : Homomorphic F}.

Lemma decrypt_fold_add vs :
  forall h,
    FHE_decrypt (fold_left FHE_add vs h)
    = (FHE_decrypt h + arithmetic_sum (plaintexts vs)) mod uint32_modulus.
Proof.
  induction vs as [|v rest IH]; intros h; simpl.
  - rewrite Z.add_0_r. symmetry. apply Z.mod_small. apply decrypt_range.
  - rewrite IH, decrypt_add.
    rewrite Zplus_mod_idemp_l. f_equal. lia.
Qed.

Lemma arithmetic_sum_app xs ys :
  arithmetic_sum (xs ++ ys) = arithmetic_sum xs + arithmetic_sum ys.
Proof.
  induction xs as [|x xs IH]; simpl; [reflexivity|].
  unfold arithmetic_sum in *. simpl. rewrite IH. lia.
Qed.

Lemma submit_totals c bid vs s :
  snd (transact c (SubmitEncryptedResponses bid vs) s) = None ->
  decrypted_sum (fst (transact c (SubmitEncryptedResponses bid vs) s)) bid
  = (decrypted_sum s bid + arithmetic_sum (plaintexts vs)) mod uint32_modulus
  /\ decrypted_count (fst (transact c (SubmitEncryptedResponses bid vs) s)) bid
     = (decrypted_count s bid + Z.of_nat (length vs)) mod uint32_modulus.
Proof.
  intros Hok.
  destruct (transact c (SubmitEncryptedResponses bid vs) s) as [s' e] eqn:Ht.
  simpl in Hok. subst e.
  apply submit_success in Ht.
  destruct Ht as (_ & _ & _ & _ & m' & -> & _ & Hat).
  unfold decrypted_sum, decrypted_count, batches_at. simpl. rewrite Hat. simpl.
  split.
  - apply decrypt_fold_add.
  - rewrite decrypt_add, decrypt_asEuint32, Zplus_mod_idemp_r. reflexivity.
Qed.

Lemma submissions_totals bid groups :
  forall s,
    succeeds (submissions bid groups) s ->
    decrypted_sum (run (submissions bid groups) s) bid
    = (decrypted_sum s bid + arithmetic_sum (plaintexts (submitted groups)))
      mod uint32_modulus
    /\ decrypted_count (run (submissions bid groups) s) bid
       = (decrypted_count s bid + Z.of_nat (length (submitted groups)))
         mod uint32_modulus.
Proof.
  induction groups as [|[c vs] rest IH]; intros s Hs.
  - simpl. rewrite !Z.add_0_r.
    split; symmetry; apply Z.mod_small; apply decrypt_range.
  - simpl in Hs. destruct Hs as [Hok Hrest].
    destruct (submit_totals c bid vs s Hok) as [Hsum Hcount].
    destruct (IH _ Hrest) as [Hsum' Hcount'].
    change (run (submissions bid ((c, vs) :: rest)) s)
      with (run (submissions bid rest)
              (fst (transact c (SubmitEncryptedResponses bid vs) s))).
    rewrite Hsum', Hcount', Hsum, Hcount.
    assert (Hsub : submitted ((c, vs) :: rest) = vs ++ submitted rest)
      by reflexivity.
    rewrite Hsub. unfold plaintexts. rewrite map_app, arithmetic_sum_app.
    rewrite length_app, Nat2Z.inj_add, !Zplus_mod_idemp_l.
    split; f_equal; lia.
Qed.

Lemma arithmetic_sum_perm xs ys :
  Permutation xs ys -> arithmetic_sum xs = arithmetic_sum ys.
Proof.
  induction 1; simpl; lia.
Qed.

End Totals.

(** C5, as amended. On a [Homomorphic] library, after any sequence of
    successful submissions to one batch the encrypted sum decrypts to the
    starting total plus the arithmetic sum of the submitted plaintexts,
    reduced modulo [2^32], and the encrypted count to the starting count plus
    the number of submitted values, reduced modulo [2^32]; from the handles
    [openBatch] stores, the starting totals are zero.  Any other successful
    grouping of the same multiset of plaintexts, from the same state, gives
    the same decrypted totals. *)
Theorem submissions_decrypt_to_totals {H : Homomorphic F} bid groups s :
  succeeds (submissions bid groups) s ->
  let s' := run (submissions bid groups) s in
  let values := submitted groups in
  decrypted_sum s' bid
  = (decrypted_sum s bid + arithmetic_sum (plaintexts values))
    mod uint32_modulus
  /\ decrypted_count s' bid
     = (decrypted_count s bid + Z.of_nat (length values)) mod uint32_modulus
  /\ (encryptedTotalResponseSum (batches_at s bid) = FHE_asEuint32 0 ->
      decrypted_sum s' bid
      = arithmetic_sum (plaintexts values) mod uint32_modulus)
  /\ (totalEncryptedResponses (batches_at s bid) = FHE_asEuint32 0 ->
      decrypted_count s' bid = Z.of_nat (length values) mod uint32_modulus)
  /\ (forall groups',
        succeeds (submissions bid groups') s ->
        Permutation (plaintexts (submitted groups')) (plaintexts values) ->
        decrypted_sum (run (submissions bid groups') s) bid
        = decrypted_sum s' bid
        /\ decrypted_count (run (submissions bid groups') s) bid
           = decrypted_count s' bid).
Proof.
  intros Hok s' values. subst s' values.
  destruct (submissions_totals bid groups s Hok) as [Hsum Hcount].
  split; [exact Hsum|]. split; [exact Hcount|]. split; [|split].
  - intros Hz. rewrite Hsum. unfold decrypted_sum. rewrite Hz.
    rewrite decrypt_asEuint32. reflexivity.
  - intros Hz. rewrite Hcount. unfold decrypted_count. rewrite Hz.
    rewrite decrypt_asEuint32. reflexivity.
  - intros groups' Hok' Hperm.
    destruct (submissions_totals bid groups' s Hok') as [Hsum' Hcount'].
    rewrite Hsum, Hcount, Hsum', Hcount'.
    rewrite (arithmetic_sum_perm _ _ Hperm).
    apply Permutation_length in Hperm. unfold plaintexts in Hperm.
    rewrite !length_map in Hperm. rewrite Hperm. auto.
Qed.

(** ** Atomicity *)

Lemma first_uninitialized (done done' : list Z) bad bad' rest rest' :
  done ++ bad :: rest = done' ++ bad' :: rest' ->
  Forall (fun v => FHE_isInitialized v = true) done ->
  Forall (fun v => FHE_isInitialized v = true) done' ->
  FHE_isInitialized bad = false ->
  FHE_isInitialized bad' = false ->
  done = done'.
Proof.
  revert done'. induction done as [|v done IH]; intros [|v' done'] Heq Hd Hd' Hb Hb';
    simpl in Heq; inversion Heq; subst.
  - reflexivity.
  - inversion Hd'; congruence.
  - inversion Hd; congruence.
  - f_equal. inversion Hd; inversion Hd'; subst. eapply IH; eauto.
Qed.

(** C4. A transaction that ends with an error leaves the whole storage as it
    was before the call.  In particular, when [submitEncryptedResponses]
    passes its guards, accumulates the initialized handles [done] and then
    meets an uninitialized one, its body reverts with [NotInitialized] in a
    storage where the caller's last-use time and the batch's encrypted sum
    were already written, and the transaction still ends in the storage it
    started from. *)
Theorem transactions_are_atomic :
  (forall c call s s' e, transact c call s = (s', Some e) -> s' = s)
  /\ (forall c bid done bad rest s,
        isProvider_at s (msg_sender c) = true ->
        paused s = false ->
        lastCallTime_at LastSubmissionTime s (msg_sender c) + cooldownSeconds s
          <= uint256_max ->
        lastCallTime_at LastSubmissionTime s (msg_sender c) + cooldownSeconds s
          <= block_timestamp c ->
        open (batches_at s bid) = true ->
        Forall (fun v => FHE_isInitialized v = true) done ->
        FHE_isInitialized bad = false ->
        let call := SubmitEncryptedResponses bid (done ++ bad :: rest) in
        (exists partial,
           dispatch c call s = Reverted NotInitialized partial
           /\ lastCallTime_at LastSubmissionTime partial (msg_sender c)
              = block_timestamp c
           /\ encryptedTotalResponseSum (batches_at partial bid)
              = fold_left FHE_add done
                  (encryptedTotalResponseSum (batches_at s bid)))
        /\ transact c call s = (s, Some NotInitialized)).
Proof.
  split; [apply @transact_error|].
  intros c bid done bad rest s Hprov Hpaused Hfit Hready Hopen Hdone Hbad call.
  subst call.
  assert (Hd : exists partial,
             dispatch c (SubmitEncryptedResponses bid (done ++ bad :: rest)) s
             = Reverted NotInitialized partial
             /\ lastCallTime_at LastSubmissionTime partial (msg_sender c)
                = block_timestamp c
             /\ encryptedTotalResponseSum (batches_at partial bid)
                = fold_left FHE_add done
                    (encryptedTotalResponseSum (batches_at s bid))).
  { rewrite submit_cases. cbv zeta.
    remember (set_lastCallTime LastSubmissionTime (msg_sender c)
                (block_timestamp c) s) as s1 eqn:Hs1.
    apply Z.ltb_ge in Hfit. apply Z.ltb_ge in Hready.
    rewrite Hprov, Hpaused, Hopen, Hfit, Hready. cbn [negb].
    destruct (accumulate_spec bid (done ++ bad :: rest) s1)
      as (m' & done' & Hoff & Hat & Hall & Hres).
    destruct Hres as [[Hr Heq]|[Hr (bad' & rest' & Heq & Hbad')]].
    - exfalso. subst done'.
      apply Forall_app in Hall. destruct Hall as [_ Hall].
      inversion Hall; congruence.
    - assert (done = done') by (eapply first_uninitialized; eauto).
      subst done'. rewrite Hr. eexists. split; [reflexivity|]. split.
      + change (lastCallTime_at LastSubmissionTime (set_batches m' s1)
                  (msg_sender c))
          with (lastCallTime_at LastSubmissionTime s1 (msg_sender c)).
        subst s1. apply lastCallTime_at_set_same.
      + change (batches_at (set_batches m' s1) bid)
          with (default Batch_zero (m' !! bid)).
        rewrite Hat. subst s1. reflexivity. }
  split; [exact Hd|].
  destruct Hd as (partial & Hd & _). unfold transact. rewrite Hd. reflexivity.
Qed.

(** ** The pause flag *)

(** C3, as amended. While [paused] is true, [openBatch], [closeBatch],
    [requestBatchSummaryDecryption] and [submitEncryptedResponses] revert
    and change nothing.  The role check comes first: the error is [Paused]
    for the administrator (for a provider, in the case of a submission), and
    [NotOwner] (respectively [NotProvider]) for any other caller. *)
Theorem paused_entry_points_revert c s :
  paused s = true ->
  transact c OpenBatch s
  = (s, Some (if msg_sender c =? owner s then Paused else NotOwner))
  /\ (forall bid,
        transact c (CloseBatch bid) s
        = (s, Some (if msg_sender c =? owner s then Paused else NotOwner)))
  /\ (forall bid,
        transact c (RequestBatchSummaryDecryption bid) s
        = (s, Some (if msg_sender c =? owner s then Paused else NotOwner)))
  /\ (forall bid vs,
        transact c (SubmitEncryptedResponses bid vs) s
        = (s, Some (if isProvider_at s (msg_sender c) then Paused
                    else NotProvider))).
Proof.
  intros Hp. repeat split; intros.
  1-3: unfold_call; destruct (msg_sender c =? owner s); simpl;
       [rewrite Hp|]; reflexivity.
  unfold transact. rewrite submit_cases. cbv zeta. rewrite Hp.
  destruct (isProvider_at s (msg_sender c)); reflexivity.
Qed.

(** The callback carries no [whenNotPaused] modifier: its outcome does not
    depend on the pause flag. *)
Lemma myCallback_ignores_pause c s requestId cleartexts proof p :
  snd (transact c (MyCallback requestId cleartexts proof) (set_paused p s))
  = snd (transact c (MyCallback requestId cleartexts proof) s).
Proof.
  unfold_call.
  change (decryptionContexts_at (set_paused p s) requestId)
    with (decryptionContexts_at s requestId).
  destruct (processed (decryptionContexts_at s requestId)); simpl;
    [reflexivity|].
  change (decryptionContexts_at (set_paused p s) requestId)
    with (decryptionContexts_at s requestId).
  change (batches_at (set_paused p s)) with (batches_at s).
  destruct (negb (_ =? _)); simpl; [reflexivity|].
  destruct (negb (FHE_checkSignatures _ _ _ _)); simpl; [reflexivity|].
  destruct (abi_decode_bytes32_pair cleartexts) as [[a b]|]; reflexivity.
Qed.

(** ** Requests for batches that were never opened *)

(** C9. For a [batchId] that has no stored batch, the summary request never
    reverts with [BatchNotClosed]; made by the administrator, while not
    paused and with the decryption cooldown elapsed, it succeeds: it stores,
    under the id the oracle returns, a context for [batchId] whose
    fingerprint is the digest of two zero handles, with [processed] false. *)
Theorem request_for_unopened_batch c s bid :
  batches s !! bid = None ->
  let cts := [FHE_toBytes32 0; FHE_toBytes32 0] in
  let ready := lastCallTime_at LastDecryptionRequestTime s (msg_sender c)
               + cooldownSeconds s in
  snd (transact c (RequestBatchSummaryDecryption bid) s) <> Some BatchNotClosed
  /\ (msg_sender c = owner s ->
      paused s = false ->
      ready <= uint256_max ->
      ready <= block_timestamp c ->
      let requestId := fst (FHE_requestDecryption cts (fhevm s)) in
      let s' := fst (transact c (RequestBatchSummaryDecryption bid) s) in
      snd (transact c (RequestBatchSummaryDecryption bid) s) = None
      /\ decryptionContexts_at s' requestId
         = mkDecryptionContext bid (keccak256_encode cts (address_this c)) false
      /\ s' = push_event (EvDecryptionRequested requestId bid)
                (set_decryptionContext requestId
                   (mkDecryptionContext bid
                      (keccak256_encode cts (address_this c)) false)
                   (set_fhevm (snd (FHE_requestDecryption cts (fhevm s)))
                      (set_lastCallTime LastDecryptionRequestTime
                         (msg_sender c) (block_timestamp c) s)))).
Proof.
  intros Hnone cts ready. subst cts ready.
  assert (Hb : batches_at s bid = Batch_zero).
  { unfold batches_at. rewrite Hnone. reflexivity. }
  unfold transact. rewrite request_cases. cbv zeta. rewrite Hb.
  unfold batch_cts. cbn [open totalEncryptedResponses
                          encryptedTotalResponseSum Batch_zero].
  destruct (msg_sender c =? owner s) eqn:Ho; cbn [negb].
  2:{ split; [discriminate|]. intros Hown. apply Z.eqb_neq in Ho. congruence. }
  destruct (paused s) eqn:Hp.
  1:{ split; [discriminate|]. intros; congruence. }
  destruct (uint256_max <? _) eqn:Hfit.
  1:{ split; [discriminate|]. intros _ _ Hle. apply Z.ltb_lt in Hfit. lia. }
  destruct (block_timestamp c <? _) eqn:Hready.
  1:{ split; [discriminate|]. intros _ _ _ Hle. apply Z.ltb_lt in Hready.
      lia. }
  cbn [fst snd]. split; [discriminate|]. intros _ _ _ _.
  split; [reflexivity|]. split; [|reflexivity].
  unfold decryptionContexts_at. simpl. rewrite lookup_insert_eq. reflexivity.
Qed.

(** Ids that were never handed out have no stored batch: in every storage
    reached from deployment, batch 0 and the batches above [currentBatchId]
    are absent. *)
Lemma never_opened_absent calls c0 cp :
  forall bid,
    bid <= 0 \/ currentBatchId (run calls (constructor c0 cp)) < bid ->
    batches (run calls (constructor c0 cp)) !! bid = None.
Proof.
  assert (Hinv : forall calls s,
            (0 <= currentBatchId s
             /\ forall b, batches s !! b <> None -> 1 <= b <= currentBatchId s) ->
            0 <= currentBatchId (run calls s)
            /\ forall b, batches (run calls s) !! b <> None ->
                         1 <= b <= currentBatchId (run calls s)).
  { clear. induction calls as [|[c call] rest IH]; intros s Hs; simpl;
      [exact Hs|].
    apply IH. destruct Hs as [Hpos Hdom].
    split.
    - destruct (transact_batch_effect c call s 0) as [Hmono _]. lia.
    - intros b Hb.
      destruct (transact_batch_effect c call s b) as [Hmono Hcases].
      assert (Hopen_dom : open (batches_at s b) = true -> batches s !! b <> None).
      { unfold batches_at. destruct (batches s !! b); simpl; congruence. }
      destruct Hcases
        as [Hsame|[(_ & Hb1 & Hcur)|[(_ & Hb1 & Hcur & Hopen & _)|[Hopen _]]]].
      + rewrite Hsame in Hb. specialize (Hdom b Hb). lia.
      + lia.
      + specialize (Hdom b (Hopen_dom Hopen)). lia.
      + specialize (Hdom b (Hopen_dom Hopen)). lia. }
  intros bid Hbid.
  destruct (Hinv calls (constructor c0 cp)) as [Hpos Hdom].
  { simpl. split; [lia|]. intros b Hb. rewrite lookup_empty in Hb. congruence. }
  destruct (batches (run calls (constructor c0 cp)) !! bid) eqn:Hl;
    [|reflexivity].
  assert (Hne : batches (run calls (constructor c0 cp)) !! bid <> None)
    by congruence.
  specialize (Hdom bid Hne). lia.
Qed.

(** ** The rate limiter and the entry points *)

(** C8, as amended. With [ready] the caller's last use of the action kind
    plus [cooldownSeconds]: when [ready] fits in a [uint256], the modifier
    reverts with [CooldownActive] exactly when the current time is below
    [ready], and otherwise passes and records the current time as the
    caller's last use of that kind; when [ready] overflows, the checked
    addition reverts with a panic.  Passing the check writes one entry of
    one table: every other identity's entry and the whole table of the other
    kind read as before, [cooldownSeconds] is unchanged, and so the outcome
    of any later check for another kind or identity is the one it would have
    been.  The two tables are bound to different entry points: a
    [submitEncryptedResponses] transaction never changes
    [lastDecryptionRequestTime], and a [requestBatchSummaryDecryption]
    transaction never changes [lastSubmissionTime]. *)
Theorem respectCooldown_spec c caller t s :
  let ready := lastCallTime_at t s caller + cooldownSeconds s in
  (ready <= uint256_max ->
   (error_of (respectCooldown c caller t s) = Some CooldownActive
    <-> block_timestamp c < ready)
   /\ (block_timestamp c < ready ->
       respectCooldown c caller t s = Reverted CooldownActive s)
   /\ (ready <= block_timestamp c ->
       respectCooldown c caller t s
       = Return tt (set_lastCallTime t caller (block_timestamp c) s)))
  /\ (uint256_max < ready ->
      respectCooldown c caller t s = Reverted Panic s)
  /\ lastCallTime_at t (set_lastCallTime t caller (block_timestamp c) s) caller
     = block_timestamp c
  /\ (forall t' a c',
        t' <> t \/ a <> caller ->
        let s' := set_lastCallTime t caller (block_timestamp c) s in
        lastCallTime_at t' s' a = lastCallTime_at t' s a
        /\ error_of (respectCooldown c' a t' s')
           = error_of (respectCooldown c' a t' s))
  /\ (forall c' bid vs s0,
        lastDecryptionRequestTime
          (fst (transact c' (SubmitEncryptedResponses bid vs) s0))
        = lastDecryptionRequestTime s0)
  /\ (forall c' bid s0,
        lastSubmissionTime
          (fst (transact c' (RequestBatchSummaryDecryption bid) s0))
        = lastSubmissionTime s0).
Proof.
  intros ready. subst ready. rewrite respectCooldown_eq.
  split; [intros Hfit|split; [intros Hover|split; [|split; [|split]]]].
  - assert (Hf : (uint256_max
                  <? lastCallTime_at t s caller + cooldownSeconds s) = false)
      by (apply Z.ltb_ge; exact Hfit).
    rewrite Hf. split; [|split].
    + destruct (block_timestamp c
                <? lastCallTime_at t s caller + cooldownSeconds s) eqn:Hlt;
        simpl.
      * apply Z.ltb_lt in Hlt. tauto.
      * apply Z.ltb_ge in Hlt. split; [discriminate|lia].
    + intros Hlt. apply Z.ltb_lt in Hlt. rewrite Hlt. reflexivity.
    + intros Hge. apply Z.ltb_ge in Hge. rewrite Hge. reflexivity.
  - apply Z.ltb_lt in Hover. rewrite Hover. reflexivity.
  - apply lastCallTime_at_set_same.
  - intros t' a c' Hne s'. subst s'.
    assert (Hsame : lastCallTime_at t'
                      (set_lastCallTime t caller (block_timestamp c) s) a
                    = lastCallTime_at t' s a)
      by (apply lastCallTime_at_set_other; exact Hne).
    split; [exact Hsame|].
    rewrite !respectCooldown_eq, Hsame.
    replace (cooldownSeconds
               (set_lastCallTime t caller (block_timestamp c) s))
      with (cooldownSeconds s) by (destruct t; reflexivity).
    destruct (uint256_max <? lastCallTime_at t' s a + cooldownSeconds s);
      [reflexivity|].
    destruct (block_timestamp c' <? lastCallTime_at t' s a + cooldownSeconds s);
      reflexivity.
  - intros c' bid vs s0.
    destruct (transact c' (SubmitEncryptedResponses bid vs) s0)
      as [s' [e|]] eqn:Ht.
    + apply transact_error in Ht. subst s'. reflexivity.
    + apply submit_success in Ht.
      destruct Ht as (_ & _ & _ & _ & m' & -> & _). reflexivity.
  - intros c' bid s0. unfold transact. rewrite request_cases. cbv zeta.
    destruct (negb (msg_sender c' =? owner s0)); [reflexivity|].
    destruct (paused s0); [reflexivity|].
    destruct (uint256_max <? _); [reflexivity|].
    destruct (block_timestamp c' <? _); [reflexivity|].
    destruct (open (batches_at s0 bid)); reflexivity.
Qed.

End Properties.

(** * The properties on concrete runs *)

Lemma mock_homomorphic : Homomorphic mockFHEVM.
Proof.
  assert (Hpos : 0 < uint32_modulus) by reflexivity.
  constructor; simpl; unfold mock_decrypt, mock_asEuint32, mock_add; intros.
  - apply Z.mod_pos_bound. exact Hpos.
  - rewrite <- Zplus_mod_idemp_l, Z_mod_same_full, Z.add_0_l, Zmod_mod.
    reflexivity.
  - rewrite <- Zplus_mod_idemp_l, Z_mod_same_full, Z.add_0_l, Zmod_mod.
    reflexivity.
Qed.

Lemma myCallback_replay_rejected_witness :
  processed (decryptionContexts_at state_finalized 0) = true
  /\ transact (as_outsider 2000) (MyCallback 0 [] []) state_finalized
     = (state_finalized, Some ReplayDetected)
  /\ processed
       (decryptionContexts_at
          (fst (transact (as_admin 2000) (RequestBatchSummaryDecryption 1)
                  state_finalized)) 0)
     = true.
Proof.
  assert (H : processed (decryptionContexts_at state_finalized 0) = true)
    by (vm_compute; reflexivity).
  destruct (myCallback_replay_rejected (as_outsider 2000) state_finalized 0
              [] [] H) as [Hreplay Hkeeps].
  split; [exact H|]. split; [exact Hreplay|].
  apply Hkeeps. intros bid Hbid. inversion Hbid; subst bid.
  apply Z.eqb_neq. vm_compute. reflexivity.
Defined.

(** C2, counterexample. Request 0 was processed, and batch 1, which it names,
    was opened afterwards: the recomputed fingerprint differs from the stored
    one, and the callback reverts with [ReplayDetected], not
    [StateMismatch]. *)
Lemma stale_processed_callback_is_replay :
  current_fingerprint (as_outsider 2000) state_stale_processed 0
  <> stateHash (decryptionContexts_at state_stale_processed 0)
  /\ snd (transact (as_outsider 2000)
            (MyCallback 0 (cleartexts_of Byte.x00 Byte.x00) some_proof)
            state_stale_processed)
     = Some ReplayDetected.
Proof.
  split; [apply Z.eqb_neq|]; vm_compute; reflexivity.
Qed.

Lemma myCallback_stale_rejected_witness :
  current_fingerprint (as_outsider 2000) state_stale_pending 0
  <> stateHash (decryptionContexts_at state_stale_pending 0)
  /\ transact (as_outsider 2000)
       (MyCallback 0 (cleartexts_of Byte.x00 Byte.x00) some_proof)
       state_stale_pending
     = (state_stale_pending, Some StateMismatch).
Proof.
  assert (Hne : current_fingerprint (as_outsider 2000) state_stale_pending 0
                <> stateHash (decryptionContexts_at state_stale_pending 0))
    by (apply Z.eqb_neq; vm_compute; reflexivity).
  assert (Hp : processed (decryptionContexts_at state_stale_pending 0) = false)
    by (vm_compute; reflexivity).
  split; [exact Hne|].
  pose proof (myCallback_stale_rejected (as_outsider 2000) state_stale_pending
                0 (cleartexts_of Byte.x00 Byte.x00) some_proof Hne) as H.
  rewrite Hp in H. exact H.
Defined.

(** C3, counterexample. While the contract is paused, the callback for the
    pending request 0 is accepted and sets [processed]; and [openBatch]
    called by someone who is not the administrator reverts with [NotOwner],
    not [Paused]. *)
Lemma paused_callback_accepted :
  paused state_paused_pending = true
  /\ snd (transact (as_outsider 2000)
            (MyCallback 0 (cleartexts_of Byte.x03 Byte.x0f) some_proof)
            state_paused_pending)
     = None
  /\ processed
       (decryptionContexts_at
          (fst (transact (as_outsider 2000)
                  (MyCallback 0 (cleartexts_of Byte.x03 Byte.x0f) some_proof)
                  state_paused_pending)) 0)
     = true
  /\ snd (transact (as_outsider 2000) OpenBatch state_paused_pending)
     = Some NotOwner.
Proof.
  evaluate_each.
Qed.

Lemma paused_entry_points_revert_witness :
  paused state_paused_pending = true
  /\ transact (as_admin 2000) OpenBatch state_paused_pending
     = (state_paused_pending, Some Paused)
  /\ transact (as_provider 2000)
       (SubmitEncryptedResponses 1 [mock_asEuint32 4]) state_paused_pending
     = (state_paused_pending, Some Paused).
Proof.
  assert (Hp : paused state_paused_pending = true) by (vm_compute; reflexivity).
  assert (Ho : (msg_sender (as_admin 2000) =? owner state_paused_pending)
               = true) by (vm_compute; reflexivity).
  assert (Hprov : isProvider_at state_paused_pending
                    (msg_sender (as_provider 2000)) = true)
    by (vm_compute; reflexivity).
  split; [exact Hp|].
  destruct (paused_entry_points_revert (as_admin 2000) state_paused_pending Hp)
    as (Hopen & _).
  destruct (paused_entry_points_revert (as_provider 2000) state_paused_pending
              Hp) as (_ & _ & _ & Hsubmit).
  rewrite Ho in Hopen. specialize (Hsubmit 1 [mock_asEuint32 4]).
  rewrite Hprov in Hsubmit. split; [exact Hopen|exact Hsubmit].
Defined.

(** C4 on a run: the second handle of the submission is the zero word; the
    body reverts after the first was accumulated, and the transaction ends
    in the storage it started from. *)
Lemma transactions_are_atomic_witness :
  encryptedTotalResponseSum (batches_at state_open 1) = mock_asEuint32 0
  /\ (exists partial,
        dispatch (as_provider 1003)
          (SubmitEncryptedResponses 1 [mock_asEuint32 5; 0; mock_asEuint32 7])
          state_open
        = Reverted NotInitialized partial
        /\ lastCallTime_at LastSubmissionTime partial provider_address = 1003
        /\ encryptedTotalResponseSum (batches_at partial 1)
           = mock_add (mock_asEuint32 0) (mock_asEuint32 5))
  /\ transact (as_provider 1003)
       (SubmitEncryptedResponses 1 [mock_asEuint32 5; 0; mock_asEuint32 7])
       state_open
     = (state_open, Some NotInitialized).
Proof.
  assert (Hsum : encryptedTotalResponseSum (batches_at state_open 1)
                 = mock_asEuint32 0) by (vm_compute; reflexivity).
  split; [exact Hsum|].
  destruct (@transactions_are_atomic mockFHEVM) as [_ Hsubmit].
  specialize (Hsubmit (as_provider 1003) 1 [mock_asEuint32 5] 0
                [mock_asEuint32 7] state_open).
  cbv zeta in Hsubmit. rewrite Hsum in Hsubmit.
  apply Hsubmit.
  - vm_compute; reflexivity.
  - vm_compute; reflexivity.
  - apply Z.leb_le. vm_compute; reflexivity.
  - apply Z.leb_le. vm_compute; reflexivity.
  - vm_compute; reflexivity.
  - repeat constructor.
  - reflexivity.
Defined.

(** C5, counterexample. The plaintexts [2^32 - 1] and [1] are submitted in
    one successful call to the freshly opened batch 1: their arithmetic sum
    is [2^32], and the encrypted sum decrypts to 0.  Whatever the library,
    a total that decrypts to a 32-bit value is below [2^32]. *)
Lemma wrapped_sum_differs :
  snd (transact (as_provider 1003)
         (SubmitEncryptedResponses 1
            [mock_asEuint32 4294967295; mock_asEuint32 1]) state_open)
  = None
  /\ decrypted_sum state_open 1 = 0
  /\ plaintexts (F := mockFHEVM) [mock_asEuint32 4294967295; mock_asEuint32 1]
     = [4294967295; 1]
  /\ arithmetic_sum
       (plaintexts (F := mockFHEVM)
          [mock_asEuint32 4294967295; mock_asEuint32 1])
     = 4294967296
  /\ decrypted_sum
       (fst (transact (as_provider 1003)
               (SubmitEncryptedResponses 1
                  [mock_asEuint32 4294967295; mock_asEuint32 1]) state_open))
       1
     = 0
  /\ (forall (F : FHEVM) (s : State F) (bid : Z),
        (forall h, 0 <= FHE_decrypt h < uint32_modulus) ->
        decrypted_sum s bid < 4294967296).
Proof.
  do 5 (split; [vm_compute; reflexivity|]).
  intros F s bid Hrange. unfold decrypted_sum.
  change 4294967296 with uint32_modulus. apply Hrange.
Qed.

Lemma submissions_decrypt_to_totals_witness :
  succeeds (submissions 1 groups_5_7_then_3) state_open
  /\ succeeds (submissions 1 groups_3_5_7_at_once) state_open
  /\ decrypted_sum (run (submissions 1 groups_5_7_then_3) state_open) 1
     = 15 mod uint32_modulus
  /\ decrypted_count (run (submissions 1 groups_5_7_then_3) state_open) 1
     = 3 mod uint32_modulus
  /\ decrypted_sum (run (submissions 1 groups_3_5_7_at_once) state_open) 1
     = decrypted_sum (run (submissions 1 groups_5_7_then_3) state_open) 1
  /\ decrypted_count (run (submissions 1 groups_3_5_7_at_once) state_open) 1
     = decrypted_count (run (submissions 1 groups_5_7_then_3) state_open) 1.
Proof.
  assert (Hok : succeeds (submissions 1 groups_5_7_then_3) state_open)
    by (vm_compute; auto).
  assert (Hok' : succeeds (submissions 1 groups_3_5_7_at_once) state_open)
    by (vm_compute; auto).
  split; [exact Hok|]. split; [exact Hok'|].
  destruct (submissions_decrypt_to_totals (H := mock_homomorphic) 1
              groups_5_7_then_3 state_open Hok)
    as (_ & _ & Hsum & Hcount & Hperm).
  split; [apply Hsum; vm_compute; reflexivity|].
  split; [apply Hcount; vm_compute; reflexivity|].
  apply (Hperm groups_3_5_7_at_once Hok').
  change (Permutation [3; 5; 7] ([5; 7] ++ [3])).
  apply Permutation_cons_app. rewrite app_nil_r. reflexivity.
Defined.

(** C6, counterexample. Batch 1 is closed; a submission to it by an address
    that is not a provider reverts with [NotProvider], not [BatchClosed]. *)
Lemma closed_batch_submit_not_provider :
  open (batches_at state_requested 1) = false
  /\ isProvider_at state_requested outsider_address = false
  /\ snd (transact (as_outsider 2000)
            (SubmitEncryptedResponses 1 [mock_asEuint32 4]) state_requested)
     = Some NotProvider.
Proof.
  evaluate_each.
Qed.

Lemma closed_batch_is_frozen_witness :
  sealed state_requested 1
  /\ sealed state_finalized 1
  /\ batches_at state_finalized 1 = batches_at state_requested 1
  /\ transact (as_provider 2000)
       (SubmitEncryptedResponses 1 [mock_asEuint32 4]) state_requested
     = (state_requested, Some BatchClosed).
Proof.
  assert (Hsealed : sealed state_requested 1).
  { split; [apply Z.leb_le|]; vm_compute; reflexivity. }
  destruct (@closed_batch_is_frozen mockFHEVM 1) as (_ & Hrun & Hsubmit).
  destruct (Hrun [ (as_outsider 1007,
                     MyCallback 0 (cleartexts_of Byte.x03 Byte.x0f)
                       some_proof) ]
              state_requested Hsealed) as [Hsealed' Hsame].
  assert (Hfin : run [ (as_outsider 1007,
                         MyCallback 0 (cleartexts_of Byte.x03 Byte.x0f)
                           some_proof) ] state_requested
                 = state_finalized).
  { unfold state_finalized, calls_finalized, state_requested.
    generalize calls_requested, deployed. intros l s.
    revert s. induction l as [|[c call] l IH]; intros s; simpl;
      [reflexivity|apply IH]. }
  rewrite Hfin in Hsealed', Hsame.
  split; [exact Hsealed|]. split; [exact Hsealed'|]. split; [exact Hsame|].
  specialize (Hsubmit (as_provider 2000) [mock_asEuint32 4] state_requested
                Hsealed).
  cbv zeta in Hsubmit.
  assert (Hprov : isProvider_at state_requested
                    (msg_sender (as_provider 2000)) = true)
    by (vm_compute; reflexivity).
  assert (Hp : paused state_requested = false) by (vm_compute; reflexivity).
  assert (Hfit : (uint256_max
                  <? lastCallTime_at LastSubmissionTime state_requested
                       (msg_sender (as_provider 2000))
                     + cooldownSeconds state_requested) = false)
    by (vm_compute; reflexivity).
  assert (Hready : (block_timestamp (as_provider 2000)
                    <? lastCallTime_at LastSubmissionTime state_requested
                         (msg_sender (as_provider 2000))
                       + cooldownSeconds state_requested) = false)
    by (vm_compute; reflexivity).
  rewrite Hprov, Hp, Hfit, Hready in Hsubmit. exact Hsubmit.
Defined.

Lemma closeBatch_spec_witness :
  msg_sender (as_admin 1005) = owner state_open
  /\ paused state_open = false
  /\ transact (as_admin 1005) (CloseBatch 2) state_open
     = (state_open, Some InvalidParameter)
  /\ transact (as_admin 1007) (CloseBatch 1) state_requested
     = (state_requested, Some BatchClosed)
  /\ transact (as_admin 1005) (CloseBatch 1) state_open
     = (push_event (EvBatchClosed 1)
          (set_batch 1 (Batch_set_open false (batches_at state_open 1))
             state_open),
        None).
Proof.
  assert (Ho : msg_sender (as_admin 1005) = owner state_open)
    by (vm_compute; reflexivity).
  assert (Hp : paused state_open = false) by (vm_compute; reflexivity).
  assert (Ho' : msg_sender (as_admin 1007) = owner state_requested)
    by (vm_compute; reflexivity).
  assert (Hp' : paused state_requested = false) by (vm_compute; reflexivity).
  split; [exact Ho|]. split; [exact Hp|].
  destruct (closeBatch_spec (as_admin 1005) state_open 2 Ho Hp) as (H1 & _).
  destruct (closeBatch_spec (as_admin 1007) state_requested 1 Ho' Hp')
    as (_ & H2 & _).
  destruct (closeBatch_spec (as_admin 1005) state_open 1 Ho Hp) as (_ & _ & H3).
  split; [apply H1; apply Z.eqb_neq; vm_compute; reflexivity|].
  split; [apply H2; vm_compute; reflexivity|].
  apply H3; vm_compute; reflexivity.
Defined.

(** C8, counterexample. The provider's last submission is at 1003 and the
    cooldown is [2^256 - 1]: at time 2000 the current time is below last use
    plus cooldown, yet the check does not fail with [CooldownActive]: the
    checked addition overflows and the call reverts with a panic. *)
Lemma cooldown_overflow_panics :
  block_timestamp (as_provider 2000)
  < lastCallTime_at LastSubmissionTime state_max_cooldown provider_address
    + cooldownSeconds state_max_cooldown
  /\ error_of (respectCooldown (as_provider 2000) provider_address
                 LastSubmissionTime state_max_cooldown)
     = Some Panic
  /\ snd (transact (as_provider 2000)
            (SubmitEncryptedResponses 1 [mock_asEuint32 4])
            state_max_cooldown)
     = Some Panic.
Proof.
  evaluate_each.
Qed.

Lemma respectCooldown_spec_witness :
  respectCooldown (as_provider 3000) provider_address LastSubmissionTime
    state_requested
  = Return tt
      (set_lastCallTime LastSubmissionTime provider_address 3000
         state_requested)
  /\ lastCallTime_at LastDecryptionRequestTime
       (set_lastCallTime LastSubmissionTime provider_address 3000
          state_requested) admin_address
     = lastCallTime_at LastDecryptionRequestTime state_requested admin_address.
Proof.
  destruct (respectCooldown_spec (as_provider 3000) provider_address
              LastSubmissionTime state_requested)
    as (Hfit & _ & _ & Hother & _).
  split.
  - apply Hfit; apply Z.leb_le; vm_compute; reflexivity.
  - apply (Hother LastDecryptionRequestTime admin_address (as_admin 3000)).
    left. discriminate.
Defined.

Lemma request_for_unopened_batch_witness :
  batches state_requested !! 7 = None
  /\ batches state_requested !! 0 = None
  /\ snd (transact (as_admin 3000) (RequestBatchSummaryDecryption 7)
            state_requested) = None
  /\ decryptionContexts_at
       (fst (transact (as_admin 3000) (RequestBatchSummaryDecryption 7)
               state_requested)) 1
     = mkDecryptionContext 7 (mock_digest [0; 0] contract_address) false
  /\ snd (transact (as_admin 3000) (RequestBatchSummaryDecryption 0)
            state_requested) = None.
Proof.
  assert (H7 : batches state_requested !! 7 = None).
  { apply never_opened_absent. right. apply Z.ltb_lt. vm_compute. reflexivity. }
  assert (H0 : batches state_requested !! 0 = None).
  { apply never_opened_absent. left. lia. }
  assert (Ho : msg_sender (as_admin 3000) = owner state_requested)
    by (vm_compute; reflexivity).
  assert (Hp : paused state_requested = false) by (vm_compute; reflexivity).
  assert (Hfit : lastCallTime_at LastDecryptionRequestTime state_requested
                   (msg_sender (as_admin 3000))
                 + cooldownSeconds state_requested <= uint256_max)
    by (apply Z.leb_le; vm_compute; reflexivity).
  assert (Hready : lastCallTime_at LastDecryptionRequestTime state_requested
                     (msg_sender (as_admin 3000))
                   + cooldownSeconds state_requested
                   <= block_timestamp (as_admin 3000))
    by (apply Z.leb_le; vm_compute; reflexivity).
  assert (Hrid : fst (@FHE_requestDecryption mockFHEVM
                        [@FHE_toBytes32 mockFHEVM 0; @FHE_toBytes32 mockFHEVM 0]
                        (fhevm state_requested)) = 1)
    by (vm_compute; reflexivity).
  split; [exact H7|]. split; [exact H0|].
  destruct (request_for_unopened_batch (as_admin 3000) state_requested 7 H7)
    as (_ & Hreq).
  destruct (Hreq Ho Hp Hfit Hready) as (Hnone & Hctx & _).
  rewrite Hrid in Hctx.
  destruct (request_for_unopened_batch (as_admin 3000) state_requested 0 H0)
    as (_ & Hreq0).
  destruct (Hreq0 Ho Hp Hfit Hready) as (Hnone0 & _).
  split; [exact Hnone|]. split; [exact Hctx|exact Hnone0].
Defined.

Lemma myCallback_unknown_request_witness :
  decryptionContexts state_requested !! 5 = None
  /\ transact (as_outsider 2000)
       (MyCallback 5 (cleartexts_of Byte.x03 Byte.x0f) some_proof)
       state_requested
     = (state_requested, Some StateMismatch).
Proof.
  assert (Hnone : decryptionContexts state_requested !! 5 = None)
    by (vm_compute; reflexivity).
  split; [exact Hnone|].
  destruct (myCallback_unknown_request (as_outsider 2000) state_requested 5
              (cleartexts_of Byte.x03 Byte.x0f) some_proof Hnone)
    as (_ & _ & _ & Hmis).
  apply Hmis. apply Z.eqb_neq. vm_compute. reflexivity.
Defined.

(** * Further properties of the contract *)

Section Administration.

Context `{F : FHEVM}.
Implicit Types (s : State F) (c : CallCtx).

(** ** Role checks *)

Lemma onlyOwner_call_rejects c call s :
  onlyOwner_call call = true ->
  msg_sender c <> owner s ->
  transact c call s = (s, Some NotOwner).
Proof.
  intros Hcall Hne. apply Z.eqb_neq in Hne.
  destruct call; try discriminate Hcall; unfold_call; rewrite Hne;
    reflexivity.
Qed.

Lemma onlyOwner_call_admits c call s :
  onlyOwner_call call = true ->
  msg_sender c = owner s ->
  snd (transact c call s) <> Some NotOwner.
Proof.
  intros Hcall Ho. apply Z.eqb_eq in Ho.
  destruct call; try discriminate Hcall.
  8: { unfold transact. rewrite request_cases. cbv zeta. rewrite Ho.
       cbn [negb].
       destruct (paused s); [discriminate|].
       destruct (uint256_max <? _); [discriminate|].
       destruct (block_timestamp c <? _); [discriminate|].
       destruct (open (batches_at s bid)); discriminate. }
  all: unfold_call; rewrite Ho; split_conditions; discriminate.
Qed.

(** The errors [submitEncryptedResponses] can end with. *)
Lemma submit_errors c bid vs s e :
  snd (transact c (SubmitEncryptedResponses bid vs) s) = Some e ->
  e = NotProvider \/ e = Paused \/ e = Panic \/ e = CooldownActive
  \/ e = BatchClosed \/ e = NotInitialized.
Proof.
  unfold transact. rewrite submit_cases. cbv zeta.
  destruct (negb (isProvider_at s (msg_sender c))); [simpl; intros [= <-]; auto|].
  destruct (paused s); [simpl; intros [= <-]; auto|].
  destruct (uint256_max <? _); [simpl; intros [= <-]; auto|].
  destruct (block_timestamp c <? _); [simpl; intros [= <-]; auto|].
  destruct (negb (open (batches_at s bid))); [simpl; intros [= <-]; auto 6|].
  match goal with |- context [accumulate bid vs ?s1] =>
    destruct (accumulate_spec bid vs s1)
      as (m' & done & _ & _ & _ & [[Hr _]|[Hr _]]); rewrite Hr end;
    simpl; [discriminate|intros [= <-]; auto 7].
Qed.

(** The errors [myCallback] can end with. *)
Lemma myCallback_errors c r cleartexts proof s e :
  snd (transact c (MyCallback r cleartexts proof) s) = Some e ->
  e = ReplayDetected \/ e = StateMismatch \/ e = InvalidSignatures
  \/ e = DecodeFailure.
Proof.
  unfold_call. split_conditions; intros [= <-]; auto.
Qed.

(** X1. A transaction ends with [NotOwner] exactly when it calls one of the
    eight [onlyOwner] entry points from an address that is not the owner;
    the storage is then left as it was. *)
Theorem NotOwner_exactly c call s :
  (snd (transact c call s) = Some NotOwner
   <-> onlyOwner_call call = true /\ msg_sender c <> owner s)
  /\ (onlyOwner_call call = true -> msg_sender c <> owner s ->
      transact c call s = (s, Some NotOwner)).
Proof.
  split; [split|].
  - intros He.
    destruct (onlyOwner_call call) eqn:Hcall.
    + split; [reflexivity|]. intros Ho.
      exact (onlyOwner_call_admits c call s Hcall Ho He).
    + exfalso. destruct call; try discriminate Hcall.
      * apply submit_errors in He. intuition discriminate.
      * apply myCallback_errors in He. intuition discriminate.
  - intros [Hcall Hne]. rewrite (onlyOwner_call_rejects c call s Hcall Hne).
    reflexivity.
  - apply onlyOwner_call_rejects.
Qed.

(** X2. [transferOwnership] called by the owner always goes through, for
    any new owner (the zero address included) and whether or not the contract
    is paused: the owner field is replaced and one event is emitted.  From
    then on every [onlyOwner] entry point rejects any caller but the new
    owner, the previous owner included, and admits the new one. *)
Theorem transferOwnership_hands_over c s newOwner :
  msg_sender c = owner s ->
  transact c (TransferOwnership newOwner) s
  = (push_event (EvOwnershipTransferred (owner s) newOwner)
       (set_owner newOwner s), None)
  /\ (forall c' call,
        onlyOwner_call call = true ->
        let s' := fst (transact c (TransferOwnership newOwner) s) in
        (msg_sender c' <> newOwner ->
         transact c' call s' = (s', Some NotOwner))
        /\ (msg_sender c' = newOwner ->
            snd (transact c' call s') <> Some NotOwner)).
Proof.
  intros Ho.
  assert (Ht : transact c (TransferOwnership newOwner) s
               = (push_event (EvOwnershipTransferred (owner s) newOwner)
                    (set_owner newOwner s), None)).
  { apply Z.eqb_eq in Ho. unfold_call. rewrite Ho. reflexivity. }
  split; [exact Ht|].
  intros c' call Hcall s'. subst s'. rewrite Ht. cbn [fst].
  split; intros Hc'.
  - apply onlyOwner_call_rejects; [exact Hcall|exact Hc'].
  - apply onlyOwner_call_admits; [exact Hcall|exact Hc'].
Qed.

(** ** Provider membership *)

Lemma addProvider_by_owner c s p :
  msg_sender c = owner s ->
  transact c (AddProvider p) s
  = (push_event (EvProviderAdded p) (set_isProvider p true s), None).
Proof.
  intros Ho. apply Z.eqb_eq in Ho. unfold_call. rewrite Ho. reflexivity.
Qed.

Lemma removeProvider_by_owner c s p :
  msg_sender c = owner s ->
  transact c (RemoveProvider p) s
  = (push_event (EvProviderRemoved p) (set_isProvider p false s), None).
Proof.
  intros Ho. apply Z.eqb_eq in Ho. unfold_call. rewrite Ho. reflexivity.
Qed.

(** X3. For the owner, [addProvider] and [removeProvider] always go through
    (no pause check, no error when the address is already in the requested
    state): they set the membership of the one address given and of no
    other, and doing either twice gives the same membership table as doing
    it once.  Removal takes effect at once: the next
    [submitEncryptedResponses] of the removed address reverts with
    [NotProvider], whatever the batch and the pause flag; after an addition
    the address is no longer rejected with [NotProvider]. *)
Theorem provider_membership c s p :
  msg_sender c = owner s ->
  let added := fst (transact c (AddProvider p) s) in
  let removed := fst (transact c (RemoveProvider p) s) in
  snd (transact c (AddProvider p) s) = None
  /\ snd (transact c (RemoveProvider p) s) = None
  /\ isProvider_at added p = true
  /\ isProvider_at removed p = false
  /\ (forall a, a <> p ->
        isProvider_at added a = isProvider_at s a
        /\ isProvider_at removed a = isProvider_at s a)
  /\ (isProvider (fst (transact c (AddProvider p) added)) = isProvider added
      /\ snd (transact c (AddProvider p) added) = None)
  /\ (isProvider (fst (transact c (RemoveProvider p) removed))
      = isProvider removed
      /\ snd (transact c (RemoveProvider p) removed) = None)
  /\ (forall c' bid vs,
        msg_sender c' = p ->
        transact c' (SubmitEncryptedResponses bid vs) removed
        = (removed, Some NotProvider))
  /\ (forall c' bid vs,
        msg_sender c' = p ->
        snd (transact c' (SubmitEncryptedResponses bid vs) added)
        <> Some NotProvider).
Proof.
  intros Ho added removed. subst added removed.
  rewrite (addProvider_by_owner c s p Ho), (removeProvider_by_owner c s p Ho).
  cbn [fst snd].
  assert (Ho1 : msg_sender c
                = owner (push_event (EvProviderAdded p)
                           (set_isProvider p true s))) by exact Ho.
  assert (Ho2 : msg_sender c
                = owner (push_event (EvProviderRemoved p)
                           (set_isProvider p false s))) by exact Ho.
  rewrite (addProvider_by_owner c _ p Ho1), (removeProvider_by_owner c _ p Ho2).
  cbn [fst snd].
  split; [reflexivity|]. split; [reflexivity|].
  split; [unfold isProvider_at; simpl; rewrite lookup_insert_eq; reflexivity|].
  split; [unfold isProvider_at; simpl; rewrite lookup_insert_eq; reflexivity|].
  split.
  { intros a Ha. unfold isProvider_at. simpl.
    rewrite !lookup_insert_ne by congruence. auto. }
  split; [split; [simpl; apply insert_insert_eq|reflexivity]|].
  split; [split; [simpl; apply insert_insert_eq|reflexivity]|].
  split.
  - intros c' bid vs Hp. unfold transact. rewrite submit_cases. cbv zeta.
    unfold isProvider_at at 1. simpl. rewrite Hp, lookup_insert_eq.
    reflexivity.
  - intros c' bid vs Hp He. apply submit_errors in He as He'.
    revert He. unfold transact. rewrite submit_cases. cbv zeta.
    unfold isProvider_at at 1. cbn [isProvider push_event set_isProvider].
    rewrite Hp, lookup_insert_eq. cbn [default negb].
    destruct (paused _); [discriminate|].
    destruct (uint256_max <? _); [discriminate|].
    destruct (block_timestamp c' <? _); [discriminate|].
    destruct (negb (open _)); [discriminate|].
    match goal with |- context [accumulate bid vs ?s1] =>
      destruct (accumulate_spec bid vs s1)
        as (m' & done & _ & _ & _ & [[Hr _]|[Hr _]]); rewrite Hr end;
      discriminate.
Qed.

End Administration.

Section Configuration.

Context `{F : FHEVM}.
Implicit Types (s : State F) (c : CallCtx).

(** ** The pause switch *)

(** X4. For the owner, [setPaused] reverts with [InvalidParameter] when asked
    for the value the flag already has, and otherwise writes the flag and
    emits [Paused] or [Unpaused]; it carries no pause check of its own, so a
    paused contract can always be unpaused, and pausing then unpausing
    leaves the storage as it was, two events apart. *)
Theorem setPaused_toggles c s :
  msg_sender c = owner s ->
  transact c (SetPaused (paused s)) s = (s, Some InvalidParameter)
  /\ transact c (SetPaused (negb (paused s))) s
     = (push_event (if negb (paused s) then EvPaused (msg_sender c)
                    else EvUnpaused (msg_sender c))
          (set_paused (negb (paused s)) s), None)
  /\ (paused s = true ->
      snd (transact c (SetPaused false) s) = None
      /\ paused (fst (transact c (SetPaused false) s)) = false)
  /\ (forall c',
        msg_sender c' = owner s ->
        fst (transact c' (SetPaused (paused s))
               (fst (transact c (SetPaused (negb (paused s))) s)))
        = push_event (if paused s then EvPaused (msg_sender c')
                      else EvUnpaused (msg_sender c'))
            (push_event (if negb (paused s) then EvPaused (msg_sender c)
                         else EvUnpaused (msg_sender c)) s)).
Proof.
  intros Ho. apply Z.eqb_eq in Ho.
  assert (H1 : transact c (SetPaused (paused s)) s
               = (s, Some InvalidParameter)).
  { unfold_call. rewrite Ho. simpl. rewrite eqb_reflx. reflexivity. }
  assert (H2 : transact c (SetPaused (negb (paused s))) s
               = (push_event (if negb (paused s) then EvPaused (msg_sender c)
                              else EvUnpaused (msg_sender c))
                    (set_paused (negb (paused s)) s), None)).
  { unfold_call. rewrite Ho. simpl. destruct (paused s); reflexivity. }
  split; [exact H1|]. split; [exact H2|]. split.
  - intros Hp. rewrite Hp in H2. simpl in H2. rewrite H2. auto.
  - intros c' Ho'. rewrite H2. cbn [fst].
    apply Z.eqb_eq in Ho'. unfold_call.
    cbn [owner push_event set_paused paused].
    rewrite Ho'. cbn [negb].
    destruct s as [o ip p cd ls ld cur bs dc fh ev]. simpl in *.
    destruct p; simpl; auto.
Qed.

(** X5. [transferOwnership], [addProvider], [removeProvider] and
    [setCooldownSeconds] carry no [whenNotPaused] modifier: whatever the
    pause flag, they end with the same error or success and make the same
    writes. *)
Theorem administration_ignores_pause c call s p :
  unpaused_admin_call call = true ->
  snd (transact c call (set_paused p s)) = snd (transact c call s)
  /\ fst (transact c call (set_paused p s))
     = set_paused p (fst (transact c call s))
  /\ snd (transact c call s) <> Some Paused.
Proof.
  intros Hcall.
  destruct call; try discriminate Hcall; unfold_call;
    cbn [owner set_paused cooldownSeconds];
    split_conditions; repeat split; try reflexivity; discriminate.
Qed.

(** ** The cooldown length *)

(** X6. For the owner, [setCooldownSeconds] reverts with [InvalidParameter]
    when given the current value and otherwise stores the new one (zero and
    the largest [uint256] included); the last-use tables are not touched, so
    the new length applies to uses recorded before the change: the next
    check of an identity compares the current time with its recorded last
    use plus the new length. *)
Theorem setCooldownSeconds_applies c s n :
  msg_sender c = owner s ->
  transact c (SetCooldownSeconds (cooldownSeconds s)) s
  = (s, Some InvalidParameter)
  /\ (n <> cooldownSeconds s ->
      transact c (SetCooldownSeconds n) s
      = (push_event (EvCooldownSecondsSet (cooldownSeconds s) n)
           (set_cooldownSeconds n s), None)
      /\ forall c' caller t,
           let s' := fst (transact c (SetCooldownSeconds n) s) in
           lastCallTime_at t s' caller = lastCallTime_at t s caller
           /\ error_of (respectCooldown c' caller t s')
              = if uint256_max <? lastCallTime_at t s caller + n
                then Some Panic
                else if block_timestamp c' <? lastCallTime_at t s caller + n
                     then Some CooldownActive
                     else None).
Proof.
  intros Ho. apply Z.eqb_eq in Ho. split.
  - unfold_call. rewrite Ho. simpl. rewrite Z.eqb_refl. reflexivity.
  - intros Hne. apply Z.eqb_neq in Hne.
    assert (Ht : transact c (SetCooldownSeconds n) s
                 = (push_event (EvCooldownSecondsSet (cooldownSeconds s) n)
                      (set_cooldownSeconds n s), None)).
    { unfold_call. rewrite Ho. simpl. rewrite Hne. reflexivity. }
    split; [exact Ht|].
    intros c' caller t s'. subst s'. rewrite Ht. cbn [fst].
    assert (Hlast : lastCallTime_at t
                      (push_event (EvCooldownSecondsSet (cooldownSeconds s) n)
                         (set_cooldownSeconds n s)) caller
                    = lastCallTime_at t s caller)
      by (destruct t; reflexivity).
    split; [exact Hlast|].
    rewrite respectCooldown_eq, Hlast.
    cbn [cooldownSeconds push_event set_cooldownSeconds].
    destruct (uint256_max <? _); [reflexivity|].
    destruct (block_timestamp c' <? _); reflexivity.
Qed.

(** ** Two submissions in a row *)

Lemma accumulate_all_initialized bid vs s :
  Forall (fun v => FHE_isInitialized v = true) vs ->
  exists s', accumulate bid vs s = Return tt s'.
Proof.
  intros Hall.
  destruct (accumulate_spec bid vs s)
    as (m' & done & _ & _ & _ & [[Hr _]|[_ (bad & rest & -> & Hbad)]]).
  - eauto.
  - apply Forall_app in Hall. destruct Hall as [_ Hall].
    inversion Hall; congruence.
Qed.

(** X7. After a successful submission by a provider at time [t1], with
    [t1 + cooldownSeconds] fitting in a [uint256]: every further submission
    of that provider made before [t1 + cooldownSeconds] reverts with
    [CooldownActive] and changes nothing, whatever batch and values it
    names; one made at or after that time is never rejected with
    [CooldownActive], and goes through when it targets the same batch with
    initialized handles.  With the initial [cooldownSeconds] of zero, two
    submissions in the same block both go through. *)
Theorem cooldown_between_submissions c1 c2 bid vs s s1 :
  transact c1 (SubmitEncryptedResponses bid vs) s = (s1, None) ->
  msg_sender c2 = msg_sender c1 ->
  block_timestamp c1 + cooldownSeconds s <= uint256_max ->
  (block_timestamp c2 < block_timestamp c1 + cooldownSeconds s ->
   forall bid' vs',
     transact c2 (SubmitEncryptedResponses bid' vs') s1
     = (s1, Some CooldownActive))
  /\ (block_timestamp c1 + cooldownSeconds s <= block_timestamp c2 ->
      forall vs',
        (forall bid',
           snd (transact c2 (SubmitEncryptedResponses bid' vs') s1)
           <> Some CooldownActive)
        /\ (Forall (fun v => FHE_isInitialized v = true) vs' ->
            snd (transact c2 (SubmitEncryptedResponses bid vs') s1) = None)).
Proof.
  intros Ht Hsender Hfit.
  apply submit_success in Ht.
  destruct Ht as (Hprov & Hpaused & Hopen & _ & m' & -> & Hoff & Hat).
  set (s1 := push_event
               (EvResponseSubmitted (msg_sender c1) bid (Z.of_nat (length vs)))
               (set_batches m'
                  (set_lastCallTime LastSubmissionTime (msg_sender c1)
                     (block_timestamp c1) s))).
  assert (Hprov1 : isProvider_at s1 (msg_sender c2) = true)
    by (rewrite Hsender; exact Hprov).
  assert (Hpaused1 : paused s1 = false) by exact Hpaused.
  assert (Hcd : cooldownSeconds s1 = cooldownSeconds s) by reflexivity.
  assert (Hlast : lastCallTime_at LastSubmissionTime s1 (msg_sender c2)
                  = block_timestamp c1).
  { rewrite Hsender.
    change (lastCallTime_at LastSubmissionTime s1 (msg_sender c1))
      with (lastCallTime_at LastSubmissionTime
              (set_lastCallTime LastSubmissionTime (msg_sender c1)
                 (block_timestamp c1) s) (msg_sender c1)).
    apply lastCallTime_at_set_same. }
  assert (Hopen1 : open (batches_at s1 bid) = true).
  { unfold batches_at. cbn [batches s1 push_event set_batches].
    rewrite Hat. reflexivity. }
  assert (Hfit' : (uint256_max <? block_timestamp c1 + cooldownSeconds s)
                  = false) by (apply Z.ltb_ge; exact Hfit).
  split.
  - intros Hlt bid' vs'. apply Z.ltb_lt in Hlt.
    unfold transact. rewrite submit_cases. cbv zeta.
    rewrite Hprov1, Hpaused1, Hlast, Hcd, Hfit', Hlt. reflexivity.
  - intros Hge vs'. apply Z.ltb_ge in Hge. split.
    + intros bid' He. revert He.
      unfold transact. rewrite submit_cases. cbv zeta.
      rewrite Hprov1, Hpaused1, Hlast, Hcd, Hfit', Hge. cbn [negb].
      destruct (negb (open _)); [discriminate|].
      match goal with |- context [accumulate bid' vs' ?s2] =>
        destruct (accumulate_spec bid' vs' s2)
          as (m2 & done & _ & _ & _ & [[Hr _]|[Hr _]]); rewrite Hr end;
        discriminate.
    + intros Hall.
      unfold transact. rewrite submit_cases. cbv zeta.
      rewrite Hprov1, Hpaused1, Hlast, Hcd, Hfit', Hge. cbn [negb].
      rewrite Hopen1. cbn [negb].
      match goal with |- context [accumulate bid vs' ?s2] =>
        destruct (accumulate_all_initialized bid vs' s2 Hall) as [s3 Hr];
        rewrite Hr end.
      reflexivity.
Qed.

End Configuration.

Section Registry.

Context `{F : FHEVM}.
Implicit Types (s : State F) (c : CallCtx).

(** ** Opening batches *)

Lemma openBatch_cases c s :
  dispatch c OpenBatch s
  = let new := currentBatchId s + 1 in
    if negb (msg_sender c =? owner s) then Reverted NotOwner s
    else if paused s then Reverted Paused s
    else if new <=? uint256_max then
      Return tt
        (push_event (EvBatchOpened new)
           (set_batches
              (<[new := mkBatch new true (FHE_asEuint32 0) (FHE_asEuint32 0)]>
                 (batches s))
              (set_currentBatchId new s)))
    else Reverted Panic s.
Proof.
  unfold_call. cbv zeta.
  destruct (negb (msg_sender c =? owner s)); [reflexivity|]. simpl.
  destruct (paused s) eqn:Hp; [reflexivity|]. simpl.
  destruct (currentBatchId s + 1 <=? uint256_max); [|reflexivity]. simpl.
  unfold set_batch, set_batches, push_event, batches_at. simpl.
  rewrite !lookup_insert_eq. simpl. rewrite !insert_insert_eq. rewrite Hp.
  reflexivity.
Qed.

(** X8. For the owner, while not paused: [openBatch] reverts with a panic
    when [currentBatchId] is the largest [uint256]; otherwise it advances
    [currentBatchId] by one and stores under the new id a batch carrying
    that id, [open = true] and two fresh encryptions of zero.  No other
    batch is touched: in particular an earlier batch that is still open
    stays open, so several batches can be open at once. *)
Theorem openBatch_spec c s :
  msg_sender c = owner s ->
  paused s = false ->
  (currentBatchId s = uint256_max -> transact c OpenBatch s = (s, Some Panic))
  /\ (currentBatchId s < uint256_max ->
      let new := currentBatchId s + 1 in
      let s' := fst (transact c OpenBatch s) in
      snd (transact c OpenBatch s) = None
      /\ currentBatchId s' = new
      /\ batches s' !! new
         = Some (mkBatch new true (FHE_asEuint32 0) (FHE_asEuint32 0))
      /\ (forall b, b <> new -> batches s' !! b = batches s !! b)
      /\ s' = push_event (EvBatchOpened new)
                (set_batches (batches s') (set_currentBatchId new s))).
Proof.
  intros Ho Hp. apply Z.eqb_eq in Ho.
  unfold transact. rewrite openBatch_cases. cbv zeta. rewrite Ho, Hp.
  cbn [negb]. split.
  - intros Hmax. rewrite Hmax.
    replace (uint256_max + 1 <=? uint256_max) with false
      by (symmetry; apply Z.leb_gt; lia).
    reflexivity.
  - intros Hlt.
    replace (currentBatchId s + 1 <=? uint256_max) with true
      by (symmetry; apply Z.leb_le; lia).
    cbn [fst snd]. split; [reflexivity|]. split; [reflexivity|].
    split; [simpl; apply lookup_insert_eq|].
    split; [|reflexivity].
    intros b Hb. simpl. apply lookup_insert_ne. congruence.
Qed.

(** ** The batch registry over time *)

(** What one transaction can do to the registry: either [currentBatchId] is
    unchanged and every stored batch is untouched or was open and keeps its
    id, or the call is an [openBatch] that stores one new batch under the
    next id. *)
Lemma transact_registry c call s :
  (currentBatchId (fst (transact c call s)) = currentBatchId s
   /\ forall b,
        batches (fst (transact c call s)) !! b = batches s !! b
        \/ (open (batches_at s b) = true
            /\ exists new,
                 batches (fst (transact c call s)) !! b = Some new
                 /\ id new = id (batches_at s b)))
  \/ (currentBatchId (fst (transact c call s)) = currentBatchId s + 1
      /\ currentBatchId s + 1 <= uint256_max
      /\ batches (fst (transact c call s)) !! (currentBatchId s + 1)
         = Some (mkBatch (currentBatchId s + 1) true (FHE_asEuint32 0)
                   (FHE_asEuint32 0))
      /\ forall b, b <> currentBatchId s + 1 ->
                   batches (fst (transact c call s)) !! b = batches s !! b).
Proof.
  destruct call.
  1-5: left; unfold_call; split_conditions;
       (split; [reflexivity|intros b; left; reflexivity]).
  - (* openBatch *)
    unfold transact. rewrite openBatch_cases. cbv zeta.
    destruct (negb (msg_sender c =? owner s));
      [left; split; [reflexivity|intros b; left; reflexivity]|].
    destruct (paused s);
      [left; split; [reflexivity|intros b; left; reflexivity]|].
    destruct (currentBatchId s + 1 <=? uint256_max) eqn:Hfit;
      [|left; split; [reflexivity|intros b; left; reflexivity]].
    right. apply Z.leb_le in Hfit. cbn [fst]. split; [reflexivity|].
    split; [exact Hfit|]. split; [simpl; apply lookup_insert_eq|].
    intros b Hb. simpl. apply lookup_insert_ne. congruence.
  - (* closeBatch *)
    left. unfold_call; split_conditions;
      try (split; [reflexivity|intros b; left; reflexivity]).
    split; [reflexivity|]. intros b.
    destruct (Z.eq_dec b bid) as [->|Hne].
    + right.
      match goal with H : negb (open _) = false |- _ =>
        apply negb_false_iff in H; split; [exact H|] end.
      eexists. split; [apply lookup_insert_eq|reflexivity].
    + left. apply lookup_insert_ne. congruence.
  - (* submitEncryptedResponses *)
    left.
    destruct (transact c (SubmitEncryptedResponses bid encryptedResponses) s)
      as [s' [e|]] eqn:Ht.
    + apply transact_error in Ht. subst s'.
      split; [reflexivity|intros b; left; reflexivity].
    + apply submit_success in Ht.
      destruct Ht as (_ & _ & Hopen & _ & m' & -> & Hoff & Hat).
      cbn [fst]. split; [reflexivity|]. intros b.
      destruct (Z.eq_dec b bid) as [->|Hne].
      * right. split; [exact Hopen|].
        eexists. split; [exact Hat|reflexivity].
      * left. apply Hoff. exact Hne.
  - (* requestBatchSummaryDecryption *)
    left. unfold transact. rewrite request_cases. cbv zeta.
    destruct (negb (msg_sender c =? owner s));
      [split; [reflexivity|intros b; left; reflexivity]|].
    destruct (paused s);
      [split; [reflexivity|intros b; left; reflexivity]|].
    destruct (uint256_max <? _);
      [split; [reflexivity|intros b; left; reflexivity]|].
    destruct (block_timestamp c <? _);
      [split; [reflexivity|intros b; left; reflexivity]|].
    destruct (open (batches_at s bid));
      split; try reflexivity; intros b; left; reflexivity.
  - (* myCallback *)
    left. unfold_call; split_conditions;
      (split; [reflexivity|intros b; left; reflexivity]).
Qed.

Lemma open_is_stored s b :
  open (batches_at s b) = true -> exists old, batches s !! b = Some old.
Proof.
  unfold batches_at. destruct (batches s !! b); simpl; [eauto|discriminate].
Qed.

(** X9. In every storage reached from deployment, [currentBatchId] lies
    between 0 and the largest [uint256], and the registry holds exactly the
    ids from 1 to [currentBatchId], each stored batch carrying its own id:
    ids are handed out in order, without gaps, and none is ever reused or
    removed. *)
Theorem registry_holds_ids_in_order calls c0 cp :
  let s := run calls (constructor c0 cp) in
  0 <= currentBatchId s <= uint256_max
  /\ forall b,
       (1 <= b <= currentBatchId s ->
        exists batch, batches s !! b = Some batch /\ id batch = b)
       /\ (~ (1 <= b <= currentBatchId s) -> batches s !! b = None).
Proof.
  cbv zeta.
  assert (Hinv : forall calls s,
            (0 <= currentBatchId s <= uint256_max
             /\ forall b,
                  (1 <= b <= currentBatchId s ->
                   exists batch, batches s !! b = Some batch /\ id batch = b)
                  /\ (~ (1 <= b <= currentBatchId s) ->
                      batches s !! b = None)) ->
            0 <= currentBatchId (run calls s) <= uint256_max
            /\ forall b,
                 (1 <= b <= currentBatchId (run calls s) ->
                  exists batch,
                    batches (run calls s) !! b = Some batch /\ id batch = b)
                 /\ (~ (1 <= b <= currentBatchId (run calls s)) ->
                     batches (run calls s) !! b = None)).
  { clear. induction calls as [|[c call] rest IH]; intros s Hs;
      [exact Hs|].
    simpl. apply IH. destruct Hs as [Hcur Hreg].
    destruct (transact_registry c call s)
      as [[Hsame Hb]|(Hnext & Hfit & Hnew & Hoff)].
    - rewrite Hsame. split; [exact Hcur|]. intros b.
      destruct (Hreg b) as [Hin Hout].
      destruct (Hb b) as [Heq|(Hopen & new & Hnew & Hid)].
      + rewrite Heq. auto.
      + destruct (open_is_stored s b Hopen) as [old Hold].
        assert (Hrange : 1 <= b <= currentBatchId s).
        { destruct (Z_le_dec 1 b) as [H1|H1];
            [destruct (Z_le_dec b (currentBatchId s)) as [H2|H2]|];
            [lia| |]; rewrite Hout in Hold by lia; discriminate. }
        split; [|intros Hn; contradiction].
        intros _. exists new. split; [exact Hnew|].
        rewrite Hid. destruct (Hin Hrange) as (batch & Hbatch & Hidb).
        unfold batches_at. rewrite Hbatch. exact Hidb.
    - rewrite Hnext. split; [lia|]. intros b.
      destruct (Hreg b) as [Hin Hout].
      destruct (Z.eq_dec b (currentBatchId s + 1)) as [->|Hne].
      + split; [|intros Hn; lia].
        intros _. eexists. split; [exact Hnew|reflexivity].
      + rewrite (Hoff b Hne). split.
        * intros Hr. apply Hin. lia.
        * intros Hn. apply Hout. lia. }
  apply Hinv. simpl. split; [unfold uint256_max; lia|].
  intros b. split; [lia|]. intros _. apply lookup_empty.
Qed.

(** ** Batches left open *)

Lemma stranded_step c call s bid :
  stranded s bid -> stranded (fst (transact c call s)) bid.
Proof.
  intros [Hlt Hopen].
  destruct (transact_batch_effect c call s bid) as [Hmono Hcases].
  destruct Hcases
    as [Hsame|[(_ & Hb & _)|[(_ & Hb & _)|[_ Hopen']]]]; try lia.
  - apply batches_at_same in Hsame. split; [lia|congruence].
  - split; [lia|exact Hopen'].
Qed.

Lemma stranded_run calls :
  forall s bid, stranded s bid -> stranded (run calls s) bid.
Proof.
  induction calls as [|[c call] rest IH]; intros s bid Hs; simpl;
    [exact Hs|].
  apply IH, stranded_step, Hs.
Qed.

(** X10. [closeBatch] accepts the current batch only and [currentBatchId]
    never decreases, so a batch that is still open when a newer one has been
    opened stays open under every sequence of calls: from then on no
    [closeBatch] naming it and no [requestBatchSummaryDecryption] for it
    ever goes through (for the owner of an unpaused contract the errors are
    [InvalidParameter], and [BatchNotClosed] once the cooldown check
    passes). *)
Theorem stranded_batch_stays_open calls s bid :
  stranded s bid ->
  let s' := run calls s in
  stranded s' bid
  /\ (forall c, snd (transact c (CloseBatch bid) s') <> None)
  /\ (forall c, snd (transact c (RequestBatchSummaryDecryption bid) s') <> None)
  /\ (forall c,
        msg_sender c = owner s' -> paused s' = false ->
        transact c (CloseBatch bid) s' = (s', Some InvalidParameter)
        /\ (lastCallTime_at LastDecryptionRequestTime s' (msg_sender c)
            + cooldownSeconds s' <= uint256_max ->
            lastCallTime_at LastDecryptionRequestTime s' (msg_sender c)
            + cooldownSeconds s' <= block_timestamp c ->
            transact c (RequestBatchSummaryDecryption bid) s'
            = (s', Some BatchNotClosed))).
Proof.
  intros Hs s'. subst s'.
  pose proof (stranded_run calls s bid Hs) as Hs'.
  destruct Hs' as [Hlt Hopen].
  set (s' := run calls s) in *.
  assert (Hne : (bid =? currentBatchId s') = false) by (apply Z.eqb_neq; lia).
  split; [split; assumption|]. split; [|split].
  - intros c. unfold_call.
    destruct (negb (msg_sender c =? owner s')); [discriminate|]. simpl.
    destruct (paused s'); [discriminate|]. simpl.
    rewrite Hne. discriminate.
  - intros c. unfold transact. rewrite request_cases. cbv zeta.
    rewrite Hopen.
    destruct (negb (msg_sender c =? owner s')); [discriminate|].
    destruct (paused s'); [discriminate|].
    destruct (uint256_max <? _); [discriminate|].
    destruct (block_timestamp c <? _); discriminate.
  - intros c Ho Hp. apply Z.eqb_eq in Ho. split.
    + unfold_call. rewrite Ho. simpl. rewrite Hp. simpl. rewrite Hne.
      reflexivity.
    + intros Hfit Hready. apply Z.ltb_ge in Hfit. apply Z.ltb_ge in Hready.
      unfold transact. rewrite request_cases. cbv zeta.
      rewrite Ho, Hp, Hfit, Hready, Hopen. reflexivity.
Qed.

End Registry.

Section Oracle.

Context `{F : FHEVM}.
Implicit Types (s : State F) (c : CallCtx).

(** ** The callback, by cases *)

Lemma myCallback_cases c r cleartexts proof s :
  dispatch c (MyCallback r cleartexts proof) s
  = let ctx := decryptionContexts_at s r in
    if processed ctx then Reverted ReplayDetected s
    else if negb (current_fingerprint c s r =? stateHash ctx)
    then Reverted StateMismatch s
    else if negb (FHE_checkSignatures r cleartexts proof (fhevm s))
    then Reverted InvalidSignatures s
    else match abi_decode_bytes32_pair cleartexts with
         | None => Reverted DecodeFailure s
         | Some (_, sum) =>
             Return tt
               (push_event (EvDecryptionCompleted r (batchId ctx) sum)
                  (set_decryptionContext r
                     (DecryptionContext_set_processed true ctx) s))
         end.
Proof.
  unfold_call. cbv zeta. unfold current_fingerprint.
  destruct (processed (decryptionContexts_at s r)); [reflexivity|]. simpl.
  destruct (negb (_ =? _)); [reflexivity|]. simpl.
  destruct (negb (FHE_checkSignatures _ _ _ _)); [reflexivity|]. simpl.
  destruct (abi_decode_bytes32_pair cleartexts) as [[a b]|]; reflexivity.
Qed.

Lemma abi_decode_some_iff (data : bytes) :
  (exists w, abi_decode_bytes32_pair data = Some w) <-> (64 <= length data)%nat.
Proof.
  unfold abi_decode_bytes32_pair.
  destruct (length data <? 64)%nat eqn:Hlt.
  - apply Nat.ltb_lt in Hlt. split; [intros [w Hw]; discriminate|lia].
  - apply Nat.ltb_ge in Hlt. split; [intros _; exact Hlt|eauto].
Qed.

(** X11. The callback is accepted exactly when the request has not been
    processed, the digest of the batch's current handles equals the stored
    fingerprint, the library accepts the proof and the cleartexts hold at
    least 64 bytes.  It then sets [processed] for that request id, keeps
    the context's batch id and fingerprint, writes nothing else, and emits
    [DecryptionCompleted] with the second 32-byte word of the cleartexts as
    the sum; the first word, the count, is not used.  The caller and the
    block time play no part: any address may deliver the callback. *)
Theorem myCallback_accepted_exactly c r cleartexts proof s :
  let ctx := decryptionContexts_at s r in
  (snd (transact c (MyCallback r cleartexts proof) s) = None
   <-> processed ctx = false
       /\ current_fingerprint c s r = stateHash ctx
       /\ FHE_checkSignatures r cleartexts proof (fhevm s) = true
       /\ (64 <= length cleartexts)%nat)
  /\ (snd (transact c (MyCallback r cleartexts proof) s) = None ->
      fst (transact c (MyCallback r cleartexts proof) s)
      = push_event
          (EvDecryptionCompleted r (batchId ctx)
             (word_of_bytes (firstn 32 (skipn 32 cleartexts))))
          (set_decryptionContext r
             (mkDecryptionContext (batchId ctx) (stateHash ctx) true) s))
  /\ (forall c',
        address_this c' = address_this c ->
        transact c' (MyCallback r cleartexts proof) s
        = transact c (MyCallback r cleartexts proof) s).
Proof.
  intros ctx. subst ctx. unfold transact.
  split; [|split].
  - rewrite myCallback_cases. cbv zeta.
    destruct (processed (decryptionContexts_at s r));
      [split; [discriminate|intros (H & _); discriminate]|].
    destruct (current_fingerprint c s r
              =? stateHash (decryptionContexts_at s r)) eqn:Hfp; cbn [negb].
    2:{ apply Z.eqb_neq in Hfp.
        split; [discriminate|intros (_ & H & _); contradiction]. }
    apply Z.eqb_eq in Hfp.
    destruct (FHE_checkSignatures r cleartexts proof (fhevm s)); cbn [negb].
    2:{ split; [discriminate|intros (_ & _ & H & _); discriminate]. }
    pose proof (abi_decode_some_iff cleartexts) as Hdec.
    destruct (abi_decode_bytes32_pair cleartexts) as [[a b]|]; simpl.
    + split; [|reflexivity]. intros _. repeat split; auto.
      apply Hdec. eauto.
    + split; [discriminate|]. intros (_ & _ & _ & Hlen).
      apply Hdec in Hlen. destruct Hlen as [w Hw]. discriminate.
  - rewrite myCallback_cases. cbv zeta.
    destruct (processed (decryptionContexts_at s r)); [discriminate|].
    destruct (negb (_ =? _)); [discriminate|].
    destruct (negb (FHE_checkSignatures _ _ _ _)); [discriminate|].
    unfold abi_decode_bytes32_pair.
    destruct (length cleartexts <? 64)%nat; [discriminate|].
    intros _. reflexivity.
  - intros c' Haddr. rewrite !myCallback_cases. cbv zeta.
    unfold current_fingerprint, _hashCiphertexts. rewrite Haddr.
    reflexivity.
Qed.

(** X12. A summary request that goes through stores, under the id the
    library returned, a context naming the batch with the digest of its two
    current handles and [processed = false]; the batch is not open.  A
    callback for that id delivered next, with a proof the library accepts
    and at least 64 bytes of cleartexts, goes through and sets [processed];
    after it, every callback for that id reverts with [ReplayDetected]. *)
Theorem request_then_callback c bid s s1 :
  transact c (RequestBatchSummaryDecryption bid) s = (s1, None) ->
  let r := fst (FHE_requestDecryption (batch_cts (batches_at s bid)) (fhevm s)) in
  open (batches_at s bid) = false
  /\ decryptionContexts_at s1 r
     = mkDecryptionContext bid
         (keccak256_encode (batch_cts (batches_at s bid)) (address_this c))
         false
  /\ (forall c' cleartexts proof,
        address_this c' = address_this c ->
        FHE_checkSignatures r cleartexts proof (fhevm s1) = true ->
        (64 <= length cleartexts)%nat ->
        let s2 := fst (transact c' (MyCallback r cleartexts proof) s1) in
        snd (transact c' (MyCallback r cleartexts proof) s1) = None
        /\ processed (decryptionContexts_at s2 r) = true
        /\ forall c'' cleartexts' proof',
             transact c'' (MyCallback r cleartexts' proof') s2
             = (s2, Some ReplayDetected)).
Proof.
  unfold transact at 1. rewrite request_cases. cbv zeta.
  destruct (negb (msg_sender c =? owner s)); [discriminate|].
  destruct (paused s); [discriminate|].
  destruct (uint256_max <? _); [discriminate|].
  destruct (block_timestamp c <? _); [discriminate|].
  destruct (open (batches_at s bid)) eqn:Hopen; [discriminate|].
  intros [= <-].
  set (r := fst (FHE_requestDecryption (batch_cts (batches_at s bid)) (fhevm s))).
  set (h := keccak256_encode (batch_cts (batches_at s bid)) (address_this c)).
  split; [reflexivity|].
  match goal with |- context [decryptionContexts_at ?st r] => set (s1 := st) end.
  assert (Hctx : decryptionContexts_at s1 r = mkDecryptionContext bid h false).
  { unfold decryptionContexts_at, s1. simpl. rewrite lookup_insert_eq.
    reflexivity. }
  split; [exact Hctx|].
  intros c' cleartexts proof Haddr Hsig Hlen.
  apply abi_decode_some_iff in Hlen. destruct Hlen as [[a b] Hdec].
  assert (Hfp : current_fingerprint c' s1 r = h).
  { unfold current_fingerprint, _hashCiphertexts. rewrite Hctx, Haddr.
    reflexivity. }
  assert (Hcb : dispatch c' (MyCallback r cleartexts proof) s1
                = Return tt
                    (push_event (EvDecryptionCompleted r bid b)
                       (set_decryptionContext r
                          (mkDecryptionContext bid h true) s1))).
  { rewrite myCallback_cases. cbv zeta. rewrite Hfp, Hctx. cbn [processed stateHash batchId].
    rewrite Z.eqb_refl, Hsig, Hdec. reflexivity. }
  assert (Ht : transact c' (MyCallback r cleartexts proof) s1
               = (push_event (EvDecryptionCompleted r bid b)
                    (set_decryptionContext r
                       (mkDecryptionContext bid h true) s1), None))
    by (unfold transact; rewrite Hcb; reflexivity).
  cbv zeta. rewrite Ht. cbn [fst snd].
  split; [reflexivity|].
  assert (Hp : processed
                 (decryptionContexts_at
                    (push_event (EvDecryptionCompleted r bid b)
                       (set_decryptionContext r
                          (mkDecryptionContext bid h true) s1)) r) = true).
  { unfold decryptionContexts_at. simpl. rewrite lookup_insert_eq.
    reflexivity. }
  split; [exact Hp|].
  intros c'' cleartexts' proof'. unfold transact.
  rewrite myCallback_cases. cbv zeta. rewrite Hp. reflexivity.
Qed.

(** ** Pending requests *)

(** Calls that can write neither the context of [r] nor the oracle's
    state. *)
Lemma leaves_context_frame c call s r :
  leaves_context r call ->
  decryptionContexts_at (fst (transact c call s)) r
  = decryptionContexts_at s r
  /\ fhevm (fst (transact c call s)) = fhevm s.
Proof.
  intros Hq. destruct call; try (exfalso; exact Hq).
  1-5: unfold_call; split_conditions; split; reflexivity.
  - unfold transact. rewrite openBatch_cases. cbv zeta.
    destruct (negb (msg_sender c =? owner s)); [split; reflexivity|].
    destruct (paused s); [split; reflexivity|].
    destruct (_ <=? _); split; reflexivity.
  - unfold_call; split_conditions; split; reflexivity.
  - destruct (transact c (SubmitEncryptedResponses bid encryptedResponses) s)
      as [s' [e|]] eqn:Ht.
    + apply transact_error in Ht. subst s'. split; reflexivity.
    + apply submit_success in Ht.
      destruct Ht as (_ & _ & _ & _ & m' & -> & _). split; reflexivity.
  - simpl in Hq. unfold transact. rewrite myCallback_cases. cbv zeta.
    destruct (processed _); [split; reflexivity|].
    destruct (negb (_ =? _)); [split; reflexivity|].
    destruct (negb (FHE_checkSignatures _ _ _ _)); [split; reflexivity|].
    destruct (abi_decode_bytes32_pair cleartexts) as [[a b]|];
      [|split; reflexivity].
    split; [|reflexivity].
    unfold decryptionContexts_at. simpl.
    rewrite lookup_insert_ne by exact Hq. reflexivity.
Qed.

(** X13. While the batch a request names is sealed, the request does not go
    stale: after any sequence of calls that contains no new summary request
    and no callback for the same id, the stored context and the recomputed
    fingerprint are what they were, and a callback for the id ends exactly
    as it would have ended before the sequence. *)
Theorem sealed_request_stays_fresh calls s r :
  sealed s (batchId (decryptionContexts_at s r)) ->
  Forall (leaves_context r) (map snd calls) ->
  let s' := run calls s in
  decryptionContexts_at s' r = decryptionContexts_at s r
  /\ (forall c, current_fingerprint c s' r = current_fingerprint c s r)
  /\ (forall c cleartexts proof,
        snd (transact c (MyCallback r cleartexts proof) s')
        = snd (transact c (MyCallback r cleartexts proof) s)).
Proof.
  intros Hsealed Hquiet s'. subst s'.
  assert (Hframe : decryptionContexts_at (run calls s) r
                   = decryptionContexts_at s r
                   /\ fhevm (run calls s) = fhevm s).
  { clear Hsealed. revert s.
    induction calls as [|[c call] rest IH]; intros s; simpl; [auto|].
    inversion Hquiet as [|? ? Hq Hrest]; subst.
    destruct (IH Hrest (fst (transact c call s))) as [H1 H2].
    destruct (leaves_context_frame c call s r Hq) as [H3 H4].
    split; congruence. }
  destruct Hframe as [Hctx Hcp].
  destruct (sealed_run calls s _ Hsealed) as [_ Hbatch].
  assert (Hfp : forall c,
            current_fingerprint c (run calls s) r = current_fingerprint c s r).
  { intros c. unfold current_fingerprint. rewrite Hctx, Hbatch. reflexivity. }
  split; [exact Hctx|]. split; [exact Hfp|].
  intros c cleartexts proof. unfold transact.
  rewrite !myCallback_cases. cbv zeta. rewrite Hfp, Hctx, Hcp.
  destruct (processed _); [reflexivity|].
  destruct (negb (_ =? _)); [reflexivity|].
  destruct (negb (FHE_checkSignatures _ _ _ _)); [reflexivity|].
  destruct (abi_decode_bytes32_pair cleartexts) as [[a b]|]; reflexivity.
Qed.

End Oracle.

Section Footprints.

Context `{F : FHEVM}.
Implicit Types (s : State F) (c : CallCtx).

(** ** Who can write what *)

(** X14. [submitEncryptedResponses] is the only entry point that checks the
    provider role: a transaction ends with [NotProvider] exactly when it is
    a submission from an address whose [isProvider] entry is not set.  The
    owner is not exempt: an owner that was not added as a provider cannot
    submit. *)
Theorem NotProvider_exactly c call s :
  (snd (transact c call s) = Some NotProvider
   <-> exists bid vs,
         call = SubmitEncryptedResponses bid vs
         /\ isProvider_at s (msg_sender c) = false)
  /\ (forall bid vs,
        msg_sender c = owner s ->
        isProvider_at s (msg_sender c) = false ->
        transact c (SubmitEncryptedResponses bid vs) s
        = (s, Some NotProvider)).
Proof.
  split; [split|].
  - intros He. destruct call.
    1-7,9: exfalso; revert He.
    1-5,7: unfold_call; split_conditions; discriminate.
    + unfold transact. rewrite openBatch_cases. cbv zeta.
      destruct (negb _); [discriminate|].
      destruct (paused s); [discriminate|].
      destruct (_ <=? _); discriminate.
    + unfold transact. rewrite request_cases. cbv zeta.
      destruct (negb _); [discriminate|].
      destruct (paused s); [discriminate|].
      destruct (uint256_max <? _); [discriminate|].
      destruct (block_timestamp c <? _); [discriminate|].
      destruct (open _); discriminate.
    + exists bid, encryptedResponses. split; [reflexivity|].
      revert He. unfold transact. rewrite submit_cases. cbv zeta.
      destruct (isProvider_at s (msg_sender c)); [|reflexivity].
      cbn [negb].
      destruct (paused s); [discriminate|].
      destruct (uint256_max <? _); [discriminate|].
      destruct (block_timestamp c <? _); [discriminate|].
      destruct (negb (open _)); [discriminate|].
      match goal with |- context [accumulate ?b ?vs ?s1] =>
        destruct (accumulate_spec b vs s1)
          as (m' & done & _ & _ & _ & [[Hr _]|[Hr _]]); rewrite Hr end;
        discriminate.
    + apply myCallback_errors in He. intuition discriminate.
  - intros (bid & vs & -> & Hp).
    unfold transact. rewrite submit_cases. cbv zeta. rewrite Hp. reflexivity.
  - intros bid vs _ Hp.
    unfold transact. rewrite submit_cases. cbv zeta. rewrite Hp. reflexivity.
Qed.

(** X15. A transaction sent by an address that is not the owner cannot
    change the owner, the provider table, the pause flag, the cooldown
    length, [currentBatchId], the decryption-request cooldown table or the
    oracle's state, nor the id or the [open] field of any batch.  If the
    sender is not a provider either, it cannot change any batch or the
    submission cooldown table: all it can do is have a callback accepted. *)
Theorem non_owner_footprint c call s :
  msg_sender c <> owner s ->
  let s' := fst (transact c call s) in
  owner s' = owner s
  /\ isProvider s' = isProvider s
  /\ paused s' = paused s
  /\ cooldownSeconds s' = cooldownSeconds s
  /\ currentBatchId s' = currentBatchId s
  /\ lastDecryptionRequestTime s' = lastDecryptionRequestTime s
  /\ fhevm s' = fhevm s
  /\ (forall b,
        id (batches_at s' b) = id (batches_at s b)
        /\ open (batches_at s' b) = open (batches_at s b))
  /\ (isProvider_at s (msg_sender c) = false ->
      batches s' = batches s
      /\ lastSubmissionTime s' = lastSubmissionTime s
      /\ (s' <> s -> exists r cleartexts proof,
                       call = MyCallback r cleartexts proof)).
Proof.
  intros Hne s'. subst s'.
  destruct (onlyOwner_call call) eqn:Hcall.
  - rewrite (onlyOwner_call_rejects c call s Hcall Hne). cbn [fst].
    repeat split; auto. intros Hs. contradiction.
  - destruct call; try discriminate Hcall.
    + (* submitEncryptedResponses *)
      destruct (transact c (SubmitEncryptedResponses bid encryptedResponses) s)
        as [s' [e|]] eqn:Ht.
      * apply transact_error in Ht. subst s'. cbn [fst].
        repeat split; auto. intros Hs. contradiction.
      * apply submit_success in Ht.
        destruct Ht as (Hprov & _ & Hopen & _ & m' & -> & Hoff & Hat).
        cbn [fst]. do 7 (split; [reflexivity|]). split.
        -- intros b. unfold batches_at at 1 3. simpl.
           destruct (Z.eq_dec b bid) as [->|Hb].
           ++ rewrite Hat. simpl. auto.
           ++ rewrite (Hoff b Hb). auto.
        -- intros Hnp. congruence.
    + (* myCallback *)
      unfold transact. rewrite myCallback_cases. cbv zeta.
      destruct (processed _);
        [cbn [fst]; repeat split; auto; intros Hs; contradiction|].
      destruct (negb (_ =? _));
        [cbn [fst]; repeat split; auto; intros Hs; contradiction|].
      destruct (negb (FHE_checkSignatures _ _ _ _));
        [cbn [fst]; repeat split; auto; intros Hs; contradiction|].
      destruct (abi_decode_bytes32_pair cleartexts) as [[a b]|];
        [|cbn [fst]; repeat split; auto; intros Hs; contradiction].
      cbn [fst]. repeat split; eauto.
Qed.

(** ** The event log *)



(** ** Submissions *)

(** X17. [submitEncryptedResponses] goes through exactly when the caller is
    a provider, the contract is not paused, the caller's last submission
    plus [cooldownSeconds] fits in a [uint256] and is not after the current
    time, the batch is open and every handle is initialized (an empty array
    qualifies).  It then folds [FHE.add] over the handles into the batch's
    sum, adds an encryption of the array length to its count, records the
    current time as the caller's last submission and emits one event; the
    batch keeps its id and stays open, and no other batch is touched. *)
Theorem submit_accepted_exactly c bid vs s :
  let ready := lastCallTime_at LastSubmissionTime s (msg_sender c)
               + cooldownSeconds s in
  (snd (transact c (SubmitEncryptedResponses bid vs) s) = None
   <-> isProvider_at s (msg_sender c) = true
       /\ paused s = false
       /\ ready <= uint256_max
       /\ ready <= block_timestamp c
       /\ open (batches_at s bid) = true
       /\ Forall (fun v => FHE_isInitialized v = true) vs)
  /\ (snd (transact c (SubmitEncryptedResponses bid vs) s) = None ->
      let s' := fst (transact c (SubmitEncryptedResponses bid vs) s) in
      batches_at s' bid
      = mkBatch (id (batches_at s bid)) true
          (FHE_add (totalEncryptedResponses (batches_at s bid))
             (FHE_asEuint32 (Z.of_nat (length vs))))
          (fold_left FHE_add vs (encryptedTotalResponseSum (batches_at s bid)))
      /\ (forall b, b <> bid -> batches s' !! b = batches s !! b)
      /\ s' = push_event
                (EvResponseSubmitted (msg_sender c) bid (Z.of_nat (length vs)))
                (set_batches (batches s')
                   (set_lastCallTime LastSubmissionTime (msg_sender c)
                      (block_timestamp c) s))).
Proof.
  intros ready. subst ready. split.
  - split.
    + intros Hok.
      destruct (transact c (SubmitEncryptedResponses bid vs) s) as [s' e] eqn:Ht.
      simpl in Hok. subst e. pose proof Ht as Ht'.
      apply submit_success in Ht.
      destruct Ht as (Hprov & Hpaused & Hopen & Hall & _).
      revert Ht'. unfold transact. rewrite submit_cases. cbv zeta.
      rewrite Hprov, Hpaused. cbn [negb].
      destruct (uint256_max <? _) eqn:Hfit; [discriminate|].
      destruct (block_timestamp c <? _) eqn:Hready; [discriminate|].
      intros _. apply Z.ltb_ge in Hfit. apply Z.ltb_ge in Hready.
      repeat split; assumption.
    + intros (Hprov & Hpaused & Hfit & Hready & Hopen & Hall).
      apply Z.ltb_ge in Hfit. apply Z.ltb_ge in Hready.
      unfold transact. rewrite submit_cases. cbv zeta.
      rewrite Hprov, Hpaused, Hfit, Hready, Hopen. cbn [negb].
      match goal with |- context [accumulate bid vs ?s1] =>
        destruct (accumulate_all_initialized bid vs s1 Hall) as [s2 Hr];
        rewrite Hr end.
      reflexivity.
  - intros Hok s'. subst s'.
    destruct (transact c (SubmitEncryptedResponses bid vs) s) as [s' e] eqn:Ht.
    simpl in Hok. subst e.
    apply submit_success in Ht.
    destruct Ht as (_ & _ & _ & _ & m' & -> & Hoff & Hat).
    cbn [fst]. split; [|split].
    + unfold batches_at at 1. simpl. rewrite Hat. reflexivity.
    + exact Hoff.
    + reflexivity.
Qed.

End Footprints.

(** * The further properties on concrete runs *)

Lemma transferOwnership_hands_over_witness :
  msg_sender (as_admin 1001) = owner deployed
  /\ snd (transact (as_admin 1001) (TransferOwnership 0) deployed) = None
  /\ owner (fst (transact (as_admin 1001) (TransferOwnership 0) deployed)) = 0
  /\ snd (transact (as_admin 1002) OpenBatch
            (fst (transact (as_admin 1001) (TransferOwnership 0) deployed)))
     = Some NotOwner.
Proof.
  assert (Ho : msg_sender (as_admin 1001) = owner deployed) by reflexivity.
  destruct (transferOwnership_hands_over (as_admin 1001) deployed 0 Ho)
    as [Ht Hafter].
  split; [exact Ho|].
  destruct (Hafter (as_admin 1002) OpenBatch eq_refl) as [Hrej _].
  cbv zeta in Hrej.
  assert (Hne : msg_sender (as_admin 1002) <> 0) by discriminate.
  rewrite (Hrej Hne). rewrite Ht. auto.
Defined.

Lemma provider_membership_witness :
  msg_sender (as_admin 1001) = owner deployed
  /\ isProvider_at
       (fst (transact (as_admin 1001) (AddProvider provider_address) deployed))
       provider_address = true
  /\ transact (as_provider 1005) (SubmitEncryptedResponses 1 [])
       (fst (transact (as_admin 1004) (RemoveProvider provider_address)
               state_open))
     = (fst (transact (as_admin 1004) (RemoveProvider provider_address)
               state_open), Some NotProvider).
Proof.
  assert (Ho : msg_sender (as_admin 1001) = owner deployed) by reflexivity.
  assert (Ho' : msg_sender (as_admin 1004) = owner state_open)
    by (vm_compute; reflexivity).
  split; [exact Ho|].
  destruct (provider_membership (as_admin 1001) deployed provider_address Ho)
    as (_ & _ & Hadded & _).
  destruct (provider_membership (as_admin 1004) state_open provider_address Ho')
    as (_ & _ & _ & _ & _ & _ & _ & Hremoved & _).
  split; [exact Hadded|].
  apply Hremoved. reflexivity.
Defined.

Lemma setPaused_toggles_witness :
  msg_sender (as_admin 2000) = owner state_paused_pending
  /\ paused state_paused_pending = true
  /\ snd (transact (as_admin 2000) (SetPaused false) state_paused_pending)
     = None
  /\ paused (fst (transact (as_admin 2000) (SetPaused false)
                    state_paused_pending)) = false.
Proof.
  assert (Ho : msg_sender (as_admin 2000) = owner state_paused_pending)
    by (vm_compute; reflexivity).
  assert (Hp : paused state_paused_pending = true)
    by (vm_compute; reflexivity).
  split; [exact Ho|]. split; [exact Hp|].
  destruct (setPaused_toggles (as_admin 2000) state_paused_pending Ho)
    as (_ & _ & Hunpause & _).
  exact (Hunpause Hp).
Defined.

Lemma administration_ignores_pause_witness :
  unpaused_admin_call (AddProvider 5) = true
  /\ snd (transact (as_admin 2000) (AddProvider 5) (set_paused true deployed))
     = snd (transact (as_admin 2000) (AddProvider 5) deployed)
  /\ snd (transact (as_admin 2000) (AddProvider 5) deployed) <> Some Paused.
Proof.
  split; [reflexivity|].
  destruct (administration_ignores_pause (as_admin 2000) (AddProvider 5)
              deployed true eq_refl) as (Hsame & _ & Hnot).
  split; [exact Hsame|exact Hnot].
Defined.

Lemma setCooldownSeconds_applies_witness :
  msg_sender (as_admin 2000) = owner state_requested
  /\ transact (as_admin 2000) (SetCooldownSeconds 0) state_requested
     = (state_requested, Some InvalidParameter)
  /\ error_of
       (respectCooldown (as_provider 2001) provider_address LastSubmissionTime
          (fst (transact (as_admin 2000) (SetCooldownSeconds 5000)
                  state_requested)))
     = Some CooldownActive.
Proof.
  assert (Ho : msg_sender (as_admin 2000) = owner state_requested)
    by (vm_compute; reflexivity).
  assert (Hcd : cooldownSeconds state_requested = 0)
    by (vm_compute; reflexivity).
  split; [exact Ho|].
  destruct (setCooldownSeconds_applies (as_admin 2000) state_requested 5000 Ho)
    as (Hsame & Hset).
  rewrite Hcd in Hsame. split; [exact Hsame|].
  assert (Hne : 5000 <> cooldownSeconds state_requested)
    by (rewrite Hcd; discriminate).
  destruct (Hset Hne) as (_ & Hcheck).
  destruct (Hcheck (as_provider 2001) provider_address LastSubmissionTime)
    as (_ & He).
  rewrite He.
  assert (Hlast : lastCallTime_at LastSubmissionTime state_requested
                    provider_address = 1004) by (vm_compute; reflexivity).
  rewrite Hlast. reflexivity.
Defined.

Lemma cooldown_between_submissions_witness :
  snd (transact (as_provider 1004)
         (SubmitEncryptedResponses 1 [mock_asEuint32 5]) state_open_cooldown)
  = None
  /\ snd (transact (as_provider 1050)
            (SubmitEncryptedResponses 1 [mock_asEuint32 7])
            (fst (transact (as_provider 1004)
                    (SubmitEncryptedResponses 1 [mock_asEuint32 5])
                    state_open_cooldown)))
     = Some CooldownActive
  /\ snd (transact (as_provider 1104)
            (SubmitEncryptedResponses 1 [mock_asEuint32 7])
            (fst (transact (as_provider 1004)
                    (SubmitEncryptedResponses 1 [mock_asEuint32 5])
                    state_open_cooldown)))
     = None.
Proof.
  assert (Hok : snd (transact (as_provider 1004)
                       (SubmitEncryptedResponses 1 [mock_asEuint32 5])
                       state_open_cooldown) = None)
    by (vm_compute; reflexivity).
  assert (Ht : transact (as_provider 1004)
                 (SubmitEncryptedResponses 1 [mock_asEuint32 5])
                 state_open_cooldown
               = (fst (transact (as_provider 1004)
                         (SubmitEncryptedResponses 1 [mock_asEuint32 5])
                         state_open_cooldown), None)).
  { rewrite <- Hok. apply surjective_pairing. }
  assert (Hcd : cooldownSeconds state_open_cooldown = 100)
    by (vm_compute; reflexivity).
  assert (Hfit : block_timestamp (as_provider 1004)
                 + cooldownSeconds state_open_cooldown <= uint256_max)
    by (rewrite Hcd; apply Z.leb_le; vm_compute; reflexivity).
  split; [exact Hok|].
  destruct (cooldown_between_submissions (as_provider 1004) (as_provider 1050)
              1 [mock_asEuint32 5] state_open_cooldown _ Ht eq_refl Hfit)
    as [Hearly _].
  destruct (cooldown_between_submissions (as_provider 1004) (as_provider 1104)
              1 [mock_asEuint32 5] state_open_cooldown _ Ht eq_refl Hfit)
    as [_ Hlate].
  split.
  - rewrite Hearly; [reflexivity|]. rewrite Hcd. reflexivity.
  - apply Hlate.
    + rewrite Hcd. apply Z.leb_le. reflexivity.
    + repeat constructor.
Defined.

Lemma openBatch_spec_witness :
  msg_sender (as_admin 1001) = owner deployed
  /\ paused deployed = false
  /\ snd (transact (as_admin 1001) OpenBatch deployed) = None
  /\ currentBatchId (fst (transact (as_admin 1001) OpenBatch deployed)) = 1
  /\ batches (fst (transact (as_admin 1001) OpenBatch deployed)) !! 1
     = Some (mkBatch 1 true (mock_asEuint32 0) (mock_asEuint32 0)).
Proof.
  assert (Ho : msg_sender (as_admin 1001) = owner deployed) by reflexivity.
  assert (Hp : paused deployed = false) by reflexivity.
  split; [exact Ho|]. split; [exact Hp|].
  destruct (openBatch_spec (as_admin 1001) deployed Ho Hp) as [_ Hopen].
  assert (Hlt : currentBatchId deployed < uint256_max) by reflexivity.
  destruct (Hopen Hlt) as (Hok & Hcur & Hnew & _).
  split; [exact Hok|]. split; [exact Hcur|exact Hnew].
Defined.

Lemma stranded_batch_stays_open_witness :
  stranded state_two_open 1
  /\ stranded
       (run [ (as_admin 1004, CloseBatch 2); (as_admin 1005, CloseBatch 1) ]
          state_two_open) 1
  /\ snd (transact (as_admin 1006) (CloseBatch 1)
            (run [ (as_admin 1004, CloseBatch 2);
                   (as_admin 1005, CloseBatch 1) ] state_two_open))
     <> None.
Proof.
  assert (Hs : stranded state_two_open 1).
  { split; [apply Z.ltb_lt|]; vm_compute; reflexivity. }
  split; [exact Hs|].
  pose proof (stranded_batch_stays_open
                [ (as_admin 1004, CloseBatch 2); (as_admin 1005, CloseBatch 1) ]
                state_two_open 1 Hs) as Hlater.
  cbv zeta in Hlater. destruct Hlater as (Hlater & Hclose & _).
  split; [exact Hlater|apply Hclose].
Defined.

Lemma request_then_callback_witness :
  snd (transact (as_admin 1006) (RequestBatchSummaryDecryption 1) state_closed)
  = None
  /\ snd (transact (as_outsider 1007)
            (MyCallback 0 (cleartexts_of Byte.x03 Byte.x0f) some_proof)
            (fst (transact (as_admin 1006) (RequestBatchSummaryDecryption 1)
                    state_closed)))
     = None.
Proof.
  assert (Hok : snd (transact (as_admin 1006)
                       (RequestBatchSummaryDecryption 1) state_closed) = None)
    by (vm_compute; reflexivity).
  assert (Ht : transact (as_admin 1006) (RequestBatchSummaryDecryption 1)
                 state_closed
               = (fst (transact (as_admin 1006)
                         (RequestBatchSummaryDecryption 1) state_closed),
                  None)).
  { rewrite <- Hok. apply surjective_pairing. }
  split; [exact Hok|].
  destruct (request_then_callback (as_admin 1006) 1 state_closed _ Ht)
    as (_ & _ & Hcallback).
  assert (Hrid : fst (@FHE_requestDecryption mockFHEVM
                        (@batch_cts mockFHEVM (batches_at state_closed 1))
                        (fhevm state_closed)) = 0)
    by (vm_compute; reflexivity).
  rewrite Hrid in Hcallback.
  destruct (Hcallback (as_outsider 1007) (cleartexts_of Byte.x03 Byte.x0f)
              some_proof eq_refl) as (Haccepted & _).
  - vm_compute; reflexivity.
  - apply Nat.leb_le. vm_compute; reflexivity.
  - exact Haccepted.
Defined.

Lemma sealed_request_stays_fresh_witness :
  sealed state_requested (batchId (decryptionContexts_at state_requested 0))
  /\ Forall (leaves_context 0) (map snd calls_meanwhile)
  /\ snd (transact (as_outsider 1012)
            (MyCallback 0 (cleartexts_of Byte.x03 Byte.x0f) some_proof)
            (run calls_meanwhile state_requested))
     = snd (transact (as_outsider 1012)
              (MyCallback 0 (cleartexts_of Byte.x03 Byte.x0f) some_proof)
              state_requested).
Proof.
  assert (Hsealed : sealed state_requested
                      (batchId (decryptionContexts_at state_requested 0))).
  { split; [apply Z.leb_le|]; vm_compute; reflexivity. }
  assert (Hquiet : Forall (leaves_context 0) (map snd calls_meanwhile))
    by (repeat constructor).
  split; [exact Hsealed|]. split; [exact Hquiet|].
  destruct (sealed_request_stays_fresh calls_meanwhile state_requested 0
              Hsealed Hquiet) as (_ & _ & Hsame).
  apply Hsame.
Defined.

Lemma non_owner_footprint_witness :
  msg_sender (as_outsider 1007) <> owner state_requested
  /\ owner (fst (transact (as_outsider 1007)
                   (MyCallback 0 (cleartexts_of Byte.x03 Byte.x0f) some_proof)
                   state_requested))
     = owner state_requested
  /\ batches (fst (transact (as_outsider 1007)
                     (MyCallback 0 (cleartexts_of Byte.x03 Byte.x0f)
                        some_proof) state_requested))
     = batches state_requested.
Proof.
  assert (Hne : msg_sender (as_outsider 1007) <> owner state_requested)
    by (apply Z.eqb_neq; vm_compute; reflexivity).
  split; [exact Hne|].
  destruct (non_owner_footprint (as_outsider 1007)
              (MyCallback 0 (cleartexts_of Byte.x03 Byte.x0f) some_proof)
              state_requested Hne)
    as (Howner & _ & _ & _ & _ & _ & _ & _ & Houtsider).
  split; [exact Howner|].
  apply Houtsider. vm_compute; reflexivity.
Defined.
